(** * show-tempo-ramp: the ramp viewer script

    A shallow embedding of [scripts/show-tempo-ramp.py].  The script is a
    straight line of six statements over three libraries (pandas, numpy,
    plotly) and [sys.argv]:

<<
    df = pd.read_csv(sys.argv[1])
    fig = go.Figure()
    fig.add_trace(go.Scatter(x=df.time, y=df.value, mode="lines"))
    speed = np.diff(df.value.values)
    fig.add_trace(go.Scatter(x=df.time.values[:-1], y=speed, mode="lines"))
    fig.show()
>>

    The statements are embedded one by one in a state-and-exception monad
    whose state holds the script's global variables and the trace of its
    observable effects.  The library calls are modelled by what they do on
    the values the script hands them: numpy arrays are typed columns, with
    the wrap-around of the fixed-width integer dtypes written out and
    binary64 floats as primitive floats. *)

From Stdlib Require Import ZArith List String Bool Lia Floats.
Import ListNotations.

Local Open Scope Z_scope.
Local Open Scope string_scope.

(** ** Python exceptions and results *)

Inductive exn : Type :=
| IndexError                      (* list index out of range *)
| NameError (name : string)       (* global variable not bound *)
| AttributeError (attr : string)  (* 'DataFrame' object has no attribute *)
| FileNotFoundError (path : string)
| TypeError                       (* unsupported operand type(s) for - *)
| OverflowError                   (* int too large to convert to float *)
| OtherError (name : string).     (* any other exception, by class name *)

Inductive result (A : Type) : Type :=
| Ok (a : A)
| Raise (e : exn).

Arguments Ok {A} a.
Arguments Raise {A} e.

Definition is_raise {A} (r : result A) : bool :=
  match r with Ok _ => false | Raise _ => true end.

(** ** numpy: arrays and [np.diff] *)

Module Np.

(** Python values held by an [object] array as [pd.read_csv] builds one
    for a column it did not convert to a fixed-width dtype: the text of a
    field, a float (NaN marks a missing field), an integer of any size,
    or a bool. *)
Inductive pyobj : Type :=
| PyStr (s : string)
| PyFloat (f : float)
| PyInt (z : Z)
| PyBool (b : bool).

Inductive ndarray : Type :=
| ArrInt64 (l : list Z)
| ArrUInt64 (l : list Z)
| ArrFloat64 (l : list float)
| ArrBool (l : list bool)
| ArrObject (l : list pyobj).

Inductive scalar : Type :=
| SInt64 (z : Z)
| SUInt64 (z : Z)
| SFloat64 (f : float)
| SBool (b : bool)
| SObject (o : pyobj).

(** Two's complement wrap-around of the 64-bit integer dtypes. *)
Definition wrap_int64 (z : Z) : Z := (z + 2 ^ 63) mod 2 ^ 64 - 2 ^ 63.
Definition wrap_uint64 (z : Z) : Z := z mod 2 ^ 64.

Definition in_int64 (z : Z) : Prop := - 2 ^ 63 <= z < 2 ^ 63.

Definition size (a : ndarray) : nat :=
  match a with
  | ArrInt64 l => List.length l
  | ArrUInt64 l => List.length l
  | ArrFloat64 l => List.length l
  | ArrBool l => List.length l
  | ArrObject l => List.length l
  end.

(** [a[i]] for an index within bounds. *)
Definition item (a : ndarray) (i : nat) : option scalar :=
  match a with
  | ArrInt64 l => option_map SInt64 (nth_error l i)
  | ArrUInt64 l => option_map SUInt64 (nth_error l i)
  | ArrFloat64 l => option_map SFloat64 (nth_error l i)
  | ArrBool l => option_map SBool (nth_error l i)
  | ArrObject l => option_map SObject (nth_error l i)
  end.

(** The entries of a text column: the text of a field, or a float (NaN)
    where the field is missing. *)
Definition is_str_or_float (o : pyobj) : bool :=
  match o with
  | PyStr _ | PyFloat _ => true
  | _ => false
  end.

Definition is_int (o : pyobj) : bool :=
  match o with
  | PyInt _ => true
  | _ => false
  end.

(** The columns of numeric entries: the numeric dtypes, and an object
    column whose entries are all Python integers (integers too large for
    64 bits). *)
Definition is_numeric (a : ndarray) : bool :=
  match a with
  | ArrInt64 _ | ArrUInt64 _ | ArrFloat64 _ => true
  | ArrBool _ => false
  | ArrObject l => forallb is_int l
  end.

(** Python slices [l[1:]] and [l[:-1]]; both are empty on a list of
    fewer than two elements. *)
Definition slice_1_None {A} (l : list A) : list A := tl l.
Definition slice_None_m1 {A} (l : list A) : list A := removelast l.

(** [a[:-1]] on an array. *)
Definition getitem_None_m1 (a : ndarray) : ndarray :=
  match a with
  | ArrInt64 l => ArrInt64 (slice_None_m1 l)
  | ArrUInt64 l => ArrUInt64 (slice_None_m1 l)
  | ArrFloat64 l => ArrFloat64 (slice_None_m1 l)
  | ArrBool l => ArrBool (slice_None_m1 l)
  | ArrObject l => ArrObject (slice_None_m1 l)
  end.

(** Elementwise application of a binary operation to two lists of the
    same length. *)
Fixpoint zip_with {A B} (op : A -> A -> B) (l1 l2 : list A) : list B :=
  match l1, l2 with
  | a :: l1', b :: l2' => op a b :: zip_with op l1' l2'
  | _, _ => []
  end.

(** The same for an operation that can raise: the loop stops at the
    first pair that raises. *)
Fixpoint zip_with_r {A B} (op : A -> A -> result B) (l1 l2 : list A)
  : result (list B) :=
  match l1, l2 with
  | a :: l1', b :: l2' =>
      match op a b with
      | Raise e => Raise e
      | Ok c =>
          match zip_with_r op l1' l2' with
          | Raise e => Raise e
          | Ok cs => Ok (c :: cs)
          end
      end
  | _, _ => Ok []
  end.

(** The subtraction of each dtype. *)
Definition sub_int64 (a b : Z) : Z := wrap_int64 (a - b).
Definition sub_uint64 (a b : Z) : Z := wrap_uint64 (a - b).
Definition sub_float64 (a b : float) : float := PrimFloat.sub a b.
Definition not_equal (a b : bool) : bool := xorb a b.

(** [float(z)] for a Python integer: the nearest binary64 value, ties to
    even; [OverflowError] when that is beyond the largest finite float. *)
Definition float_of_int (z : Z) : result float :=
  match binary_normalize prec emax z 0 false with
  | S754_infinity _ => Raise OverflowError
  | f => Ok (SF2Prim f)
  end.

(** A Python number as an operand of [-]: an integer (a bool counts as 0
    or 1) or a float; a text is no number. *)
Inductive pynum : Type :=
| NumInt (z : Z)
| NumFloat (f : float).

Definition as_number (o : pyobj) : option pynum :=
  match o with
  | PyStr _ => None
  | PyFloat f => Some (NumFloat f)
  | PyInt z => Some (NumInt z)
  | PyBool b => Some (NumInt (Z.b2z b))
  end.

(** Python's [a - b] on the elements of an object array: exact on two
    integers; with a float on either side the integer is converted first;
    [TypeError] as soon as one side is a text. *)
Definition py_sub (a b : pyobj) : result pyobj :=
  match as_number a, as_number b with
  | Some (NumInt x), Some (NumInt y) => Ok (PyInt (x - y))
  | Some (NumFloat x), Some (NumFloat y) => Ok (PyFloat (PrimFloat.sub x y))
  | Some (NumInt x), Some (NumFloat y) =>
      match float_of_int x with
      | Ok x' => Ok (PyFloat (PrimFloat.sub x' y))
      | Raise e => Raise e
      end
  | Some (NumFloat x), Some (NumInt y) =>
      match float_of_int y with
      | Ok y' => Ok (PyFloat (PrimFloat.sub x y'))
      | Raise e => Raise e
      end
  | _, _ => Raise TypeError
  end.

(** [np.diff(a)] with the default [n=1], [axis=-1]:
<<
    op = not_equal if a.dtype == np.bool_ else subtract
    a = op(a[slice1], a[slice2])      # a[1:], a[:-1]
>> *)
Definition diff (a : ndarray) : result ndarray :=
  match a with
  | ArrBool l =>
      Ok (ArrBool (zip_with not_equal (slice_1_None l) (slice_None_m1 l)))
  | ArrInt64 l =>
      Ok (ArrInt64 (zip_with sub_int64 (slice_1_None l) (slice_None_m1 l)))
  | ArrUInt64 l =>
      Ok (ArrUInt64 (zip_with sub_uint64 (slice_1_None l) (slice_None_m1 l)))
  | ArrFloat64 l =>
      Ok (ArrFloat64 (zip_with sub_float64 (slice_1_None l) (slice_None_m1 l)))
  | ArrObject l =>
      match zip_with_r py_sub (slice_1_None l) (slice_None_m1 l) with
      | Ok r => Ok (ArrObject r)
      | Raise e => Raise e
      end
  end.

End Np.

(** ** pandas: the table and [pd.read_csv] *)

Module Pd.

(** A column of the table; [.values] of a [Series] is its array. *)
Definition Series : Type := Np.ndarray.
Definition values (s : Series) : Np.ndarray := s.

(** The table: its columns in file order, by header name. *)
Record DataFrame : Type := { columns : list (string * Series) }.

Fixpoint lookup (name : string) (cols : list (string * Series))
  : option Series :=
  match cols with
  | [] => None
  | (k, c) :: cols' => if String.eqb k name then Some c else lookup name cols'
  end.

(** [df.name]: the column of that header, or [AttributeError]. *)
Definition getattr (d : DataFrame) (name : string) : result Series :=
  match lookup name (columns d) with
  | Some c => Ok c
  | None => Raise (AttributeError name)
  end.

(** Every column of a table has one entry per row: the table has [n] rows. *)
Definition nrows_is (d : DataFrame) (n : nat) : Prop :=
  forall k c, In (k, c) (columns d) -> Np.size c = n.

(** What a path holds.  The parse of a readable file is pandas's: the
    table it returns is taken as given. *)
Inductive file_entry : Type :=
| Missing                     (* no such file or directory *)
| Unreadable (e : exn)        (* the open, the decoding or the parser raises *)
| Table (d : DataFrame).      (* a delimited file with a header row *)

Definition read_csv (fs : string -> file_entry) (path : string)
  : result DataFrame :=
  match fs path with
  | Missing => Raise (FileNotFoundError path)
  | Unreadable e => Raise e
  | Table d => Ok d
  end.

End Pd.

(** ** plotly: traces and figures *)

Module Go.

(** [go.Scatter(x=..., y=..., mode=...)]; an axis the call does not name
    is [None], and the trace is then drawn on the figure's first axis. *)
Record Scatter : Type := {
  x : Np.ndarray;
  y : Np.ndarray;
  mode : string;
  xaxis : option string;
  yaxis : option string
}.

Definition mkScatter (xs ys : Np.ndarray) (m : string) : Scatter :=
  {| x := xs; y := ys; mode := m; xaxis := None; yaxis := None |}.

Record Figure : Type := { data : list Scatter }.

(** [go.Figure()] *)
Definition new_Figure : Figure := {| data := [] |}.

(** [fig.add_trace(t)] appends to [fig.data]. *)
Definition add_trace (f : Figure) (t : Scatter) : Figure :=
  {| data := data f ++ [t] |}.

End Go.

(** ** The script *)

(** How [fig.show()] can fail to put the figure on screen: the renderer
    raises, or no renderer is available and the call returns without
    having displayed anything. *)
Inductive failure : Type :=
| Raises (e : exn)
| Silent.

(** The environment of one invocation. *)
Record World : Type := {
  argv : list string;              (* sys.argv; argv[0] is the script *)
  fs : string -> Pd.file_entry;    (* the file system *)
  renderer : option failure        (* how the display fails, if it does *)
}.

(** Observable effects, oldest first. *)
Inductive event : Type :=
| IoOpen (path : string)           (* read_csv was issued on the path *)
| Displayed (f : Go.Figure).       (* the figure was put on screen *)

(** The script's globals and its effect trace. *)
Record State : Type := {
  df : option Pd.DataFrame;
  fig : option Go.Figure;
  speed : option Np.ndarray;
  events : list event
}.

Definition initial : State :=
  {| df := None; fig := None; speed := None; events := [] |}.

Definition M (A : Type) : Type := State -> result A * State.

Definition ret {A} (a : A) : M A := fun s => (Ok a, s).

Definition bind {A B} (m : M A) (k : A -> M B) : M B :=
  fun s =>
    match m s with
    | (Ok a, s') => k a s'
    | (Raise e, s') => (Raise e, s')
    end.

Definition lift {A} (r : result A) : M A := fun s => (r, s).

Notation "x <- m ;; k" := (bind m (fun x => k))
  (at level 61, m at next level, right associativity).
Notation "m ;;; k" := (bind m (fun _ => k))
  (at level 61, right associativity).

Definition emit (e : event) : M unit :=
  fun s => (Ok tt, {| df := df s; fig := fig s; speed := speed s;
                      events := events s ++ [e] |}).

(** Reading and binding the globals. *)
Definition load_df : M Pd.DataFrame :=
  fun s => match df s with
           | Some d => (Ok d, s)
           | None => (Raise (NameError "df"), s)
           end.

Definition load_fig : M Go.Figure :=
  fun s => match fig s with
           | Some f => (Ok f, s)
           | None => (Raise (NameError "fig"), s)
           end.

Definition load_speed : M Np.ndarray :=
  fun s => match speed s with
           | Some a => (Ok a, s)
           | None => (Raise (NameError "speed"), s)
           end.

Definition store_df (d : Pd.DataFrame) : M unit :=
  fun s => (Ok tt, {| df := Some d; fig := fig s; speed := speed s;
                      events := events s |}).

Definition store_fig (f : Go.Figure) : M unit :=
  fun s => (Ok tt, {| df := df s; fig := Some f; speed := speed s;
                      events := events s |}).

Definition store_speed (a : Np.ndarray) : M unit :=
  fun s => (Ok tt, {| df := df s; fig := fig s; speed := Some a;
                      events := events s |}).

(** [sys.argv[i]] *)
Definition sys_argv (w : World) (i : nat) : M string :=
  lift (match nth_error (argv w) i with
        | Some a => Ok a
        | None => Raise IndexError
        end).

(** [pd.read_csv(path)] *)
Definition pd_read_csv (w : World) (path : string) : M Pd.DataFrame :=
  emit (IoOpen path) ;;;
  lift (Pd.read_csv (fs w) path).

(** [fig.add_trace(t)]: the figure object is updated in place. *)
Definition fig_add_trace (t : Go.Scatter) : M unit :=
  f <- load_fig ;;
  store_fig (Go.add_trace f t).

(** [fig.show()] *)
Definition fig_show (w : World) : M unit :=
  f <- load_fig ;;
  match renderer w with
  | None => emit (Displayed f)
  | Some Silent => ret tt
  | Some (Raises e) => lift (Raise e)
  end.

(** [df = pd.read_csv(sys.argv[1])] *)
Definition stmt_load (w : World) : M unit :=
  path <- sys_argv w 1 ;;
  d <- pd_read_csv w path ;;
  store_df d.

(** [fig = go.Figure()] *)
Definition stmt_figure : M unit :=
  store_fig Go.new_Figure.

(** [fig.add_trace(go.Scatter(x=df.time, y=df.value, mode="lines"))] *)
Definition stmt_trace_raw : M unit :=
  _ <- load_fig ;;
  d <- load_df ;;
  xs <- lift (Pd.getattr d "time") ;;
  d' <- load_df ;;
  ys <- lift (Pd.getattr d' "value") ;;
  fig_add_trace (Go.mkScatter xs ys "lines").

(** [speed = np.diff(df.value.values)] *)
Definition stmt_diff : M unit :=
  d <- load_df ;;
  v <- lift (Pd.getattr d "value") ;;
  r <- lift (Np.diff (Pd.values v)) ;;
  store_speed r.

(** [fig.add_trace(go.Scatter(x=df.time.values[:-1], y=speed, mode="lines"))] *)
Definition stmt_trace_rate : M unit :=
  _ <- load_fig ;;
  d <- load_df ;;
  t <- lift (Pd.getattr d "time") ;;
  ys <- load_speed ;;
  fig_add_trace (Go.mkScatter (Np.getitem_None_m1 (Pd.values t)) ys "lines").

(** The statements that build the figure, in source order. *)
Definition prepare (w : World) : M unit :=
  stmt_load w ;;;
  stmt_figure ;;;
  stmt_trace_raw ;;;
  stmt_diff ;;;
  stmt_trace_rate.

(** The whole script: build the figure, then [fig.show()]. *)
Definition main (w : World) : M unit :=
  prepare w ;;;
  fig_show w.

(** Running the script under the interpreter: an uncaught exception makes
    the interpreter print a traceback on standard error and exit with
    status 1; otherwise the status is 0.  [stderr] holds what the
    interpreter itself writes there, the traceback; warnings a library may
    print on the way are no part of the model. *)
Record Process : Type := {
  exit_code : Z;
  stderr : list string;
  final : State
}.

Definition exn_name (e : exn) : string :=
  match e with
  | IndexError => "IndexError"
  | NameError _ => "NameError"
  | AttributeError _ => "AttributeError"
  | FileNotFoundError _ => "FileNotFoundError"
  | TypeError => "TypeError"
  | OverflowError => "OverflowError"
  | OtherError n => n
  end.

Definition python (w : World) : Process :=
  match main w initial with
  | (Ok _, s) => {| exit_code := 0; stderr := []; final := s |}
  | (Raise e, s) =>
      {| exit_code := 1;
         stderr := ["Traceback (most recent call last):"; exn_name e];
         final := s |}
  end.

(** ** Example invocations *)

Module Examples.

Import Np.

Definition script : string := "show-tempo-ramp.py".

Definition world_of (d : Pd.DataFrame) : World :=
  {| argv := [script; "ramp.csv"];
     fs := fun p => if String.eqb p "ramp.csv" then Pd.Table d else Pd.Missing;
     renderer := None |}.

(** value = [10, 12, 9, 9, 15], time = [0, 1, 2, 3, 4] *)
Definition ramp5 : Pd.DataFrame :=
  {| Pd.columns := [("time", ArrInt64 [0; 1; 2; 3; 4]);
                    ("value", ArrInt64 [10; 12; 9; 9; 15])] |}.

(** The same table with a float value column. *)
Definition ramp5f : Pd.DataFrame :=
  {| Pd.columns := [("time", ArrInt64 [0; 1; 2; 3; 4]);
                    ("value", ArrFloat64 [10; 12; 9; 9; 15]%float)] |}.

(** A single row, value = [5]. *)
Definition single : Pd.DataFrame :=
  {| Pd.columns := [("time", ArrInt64 [0]); ("value", ArrInt64 [5])] |}.

(** A single row whose value field is the text abc. *)
Definition text1 : Pd.DataFrame :=
  {| Pd.columns := [("time", ArrInt64 [0]);
                    ("value", ArrObject [PyStr "abc"])] |}.

(** Two rows, the second value field is the text abc. *)
Definition text2 : Pd.DataFrame :=
  {| Pd.columns := [("time", ArrInt64 [0; 1]);
                    ("value", ArrObject [PyStr "10"; PyStr "abc"])] |}.

(** A file with a time column only. *)
Definition no_value : Pd.DataFrame :=
  {| Pd.columns := [("time", ArrInt64 [0; 1; 2])] |}.

(** No file at the path given. *)
Definition world_missing : World :=
  {| argv := [script; "nowhere.csv"];
     fs := fun _ => Pd.Missing;
     renderer := None |}.

(** No argument on the command line. *)
Definition world_noarg : World :=
  {| argv := [script];
     fs := fun _ => Pd.Table ramp5;
     renderer := None |}.

(** A valid file, no display backend. *)
Definition world_headless : World :=
  {| argv := [script; "ramp.csv"];
     fs := fun _ => Pd.Table ramp5;
     renderer := Some (Raises (OtherError "ValueError")) |}.

(** A valid file, no renderer available: [fig.show()] returns without
    displaying. *)
Definition world_silent : World :=
  {| argv := [script; "ramp.csv"];
     fs := fun _ => Pd.Table ramp5;
     renderer := Some Silent |}.

(** Two rows at the two ends of the int64 range. *)
Definition extremes : Pd.DataFrame :=
  {| Pd.columns := [("time", ArrInt64 [0; 1]);
                    ("value", ArrInt64 [- 2 ^ 63; 2 ^ 63 - 1])] |}.

(** Integers beyond 64 bits, kept as Python integers. *)
Definition huge : Pd.DataFrame :=
  {| Pd.columns := [("time", ArrInt64 [0; 1]);
                    ("value", ArrObject [PyInt (2 ^ 64); PyInt (2 ^ 65 + 7)])] |}.

(** A missing-value marker in the value column, read as NaN. *)
Definition with_nan : Pd.DataFrame :=
  {| Pd.columns := [("time", ArrInt64 [0; 1; 2]);
                    ("value", ArrFloat64 [1; nan; 3]%float)] |}.

End Examples.

(** ** States of a run *)

(** The figure once both traces are added. *)
Definition two_traces (t v rate : Np.ndarray) : Go.Figure :=
  {| Go.data := [Go.mkScatter t v "lines";
                 Go.mkScatter (Np.getitem_None_m1 t) rate "lines"] |}.

(** The state when [fig.show()] is reached. *)
Definition built (path : string) (d : Pd.DataFrame) (t v rate : Np.ndarray)
  : State :=
  {| df := Some d; fig := Some (two_traces t v rate); speed := Some rate;
     events := [IoOpen path] |}.

(** The state after a run that displayed the figure. *)
Definition shown (path : string) (d : Pd.DataFrame) (t v rate : Np.ndarray)
  : State :=
  {| df := Some d; fig := Some (two_traces t v rate); speed := Some rate;
     events := [IoOpen path; Displayed (two_traces t v rate)] |}.

(** The state in which a statement after [fig = go.Figure()] raises
    before the second trace is added. *)
Definition partial (path : string) (d : Pd.DataFrame)
  (traces : list Go.Scatter) : State :=
  {| df := Some d; fig := Some {| Go.data := traces |}; speed := None;
     events := [IoOpen path] |}.

(** The sum of a list of integers, in exact arithmetic. *)
Definition total (l : list Z) : Z := fold_right Z.add 0 l.

(** A straight ramp of [n] samples: start [a], step [k]. *)
Definition ramp (a k : Z) (n : nat) : list Z :=
  map (fun j => a + Z.of_nat j * k) (seq 0 n).

(** ** Lists: the two slices and the elementwise loop *)

Section Slices.

Context {A : Type}.

Lemma length_slice_None_m1 (l : list A) :
  List.length (Np.slice_None_m1 l) = (List.length l - 1)%nat.
Proof.
  unfold Np.slice_None_m1.
  induction l as [|a [|b l'] IH]; cbn in *; try reflexivity.
  rewrite IH. lia.
Qed.

Lemma length_slice_1_None (l : list A) :
  List.length (Np.slice_1_None l) = (List.length l - 1)%nat.
Proof. destruct l; cbn; lia. Qed.

Lemma nth_error_slice_1_None (l : list A) (i : nat) :
  nth_error (Np.slice_1_None l) i = nth_error l (S i).
Proof. destruct l; cbn; [destruct i|]; reflexivity. Qed.

Lemma nth_error_slice_None_m1 (l : list A) (i : nat) :
  (S i < List.length l)%nat ->
  nth_error (Np.slice_None_m1 l) i = nth_error l i.
Proof.
  unfold Np.slice_None_m1. revert i.
  induction l as [|a [|b l'] IH]; intros i Hi; cbn in Hi; try lia.
  destruct i as [|i]; [reflexivity|].
  change (nth_error (removelast (b :: l')) i = nth_error (b :: l') i).
  apply IH. cbn. lia.
Qed.

Lemma nth_error_slice_None_m1_out (l : list A) (i : nat) :
  (List.length l - 1 <= i)%nat ->
  nth_error (Np.slice_None_m1 l) i = None.
Proof.
  intros Hi. apply nth_error_None. rewrite length_slice_None_m1. exact Hi.
Qed.

Context {B : Type}.

Lemma length_zip_with (op : A -> A -> B) (l1 l2 : list A) :
  List.length (Np.zip_with op l1 l2) = Nat.min (List.length l1) (List.length l2).
Proof.
  revert l2. induction l1 as [|a l1 IH]; intros [|b l2]; cbn; auto.
Qed.

Lemma nth_error_zip_with (op : A -> A -> B) (l1 l2 : list A) i a b :
  nth_error l1 i = Some a -> nth_error l2 i = Some b ->
  nth_error (Np.zip_with op l1 l2) i = Some (op a b).
Proof.
  revert l2 i. induction l1 as [|a1 l1 IH]; intros [|b2 l2] [|i]; cbn;
    try discriminate.
  - intros [= ->] [= ->]. reflexivity.
  - apply IH.
Qed.

Lemma length_zip_with_r (op : A -> A -> result B) (l1 l2 : list A) r :
  Np.zip_with_r op l1 l2 = Ok r ->
  List.length r = Nat.min (List.length l1) (List.length l2).
Proof.
  revert l2 r. induction l1 as [|a l1 IH]; intros [|b l2] r; cbn;
    try (intros [= <-]; reflexivity).
  destruct (op a b); [|discriminate].
  destruct (Np.zip_with_r op l1 l2) eqn:E; [|discriminate].
  intros [= <-]. cbn. f_equal. apply IH. exact E.
Qed.

(** The differences of a list: [op(l[1:], l[:-1])]. *)
Lemma length_differences (op : A -> A -> B) (l : list A) :
  List.length (Np.zip_with op (Np.slice_1_None l) (Np.slice_None_m1 l))
  = (List.length l - 1)%nat.
Proof.
  rewrite length_zip_with, length_slice_1_None, length_slice_None_m1. lia.
Qed.

Lemma nth_error_differences (op : A -> A -> B) (l : list A) i :
  (S i < List.length l)%nat ->
  exists a b, nth_error l (S i) = Some a /\ nth_error l i = Some b /\
    nth_error (Np.zip_with op (Np.slice_1_None l) (Np.slice_None_m1 l)) i
    = Some (op a b).
Proof.
  intros Hi.
  destruct (nth_error l (S i)) as [a|] eqn:Ea.
  2:{ apply nth_error_None in Ea. lia. }
  destruct (nth_error l i) as [b|] eqn:Eb.
  2:{ apply nth_error_None in Eb. lia. }
  exists a, b. repeat split.
  apply nth_error_zip_with.
  - rewrite nth_error_slice_1_None. exact Ea.
  - rewrite nth_error_slice_None_m1 by exact Hi. exact Eb.
Qed.

End Slices.

(** ** [np.diff] *)

Lemma forallb_slice_1_None {A} (p : A -> bool) (l : list A) :
  forallb p l = true -> forallb p (Np.slice_1_None l) = true.
Proof.
  destruct l as [|a l]; cbn; [reflexivity|].
  intros H. apply andb_true_iff in H. apply H.
Qed.

Lemma forallb_slice_None_m1 {A} (p : A -> bool) (l : list A) :
  forallb p l = true -> forallb p (Np.slice_None_m1 l) = true.
Proof.
  unfold Np.slice_None_m1.
  induction l as [|a [|b l] IH]; cbn in *; try reflexivity.
  intros H. apply andb_true_iff in H. destruct H as [Ha H].
  rewrite Ha. exact (IH H).
Qed.

Lemma nth_error_zip_with_r {A B} (op : A -> A -> result B) l1 l2 r i a b :
  Np.zip_with_r op l1 l2 = Ok r ->
  nth_error l1 i = Some a -> nth_error l2 i = Some b ->
  exists c, op a b = Ok c /\ nth_error r i = Some c.
Proof.
  revert l2 r i. induction l1 as [|a1 l1 IH]; intros [|b2 l2] r [|i]; cbn;
    try discriminate.
  - destruct (op a1 b2) as [c|] eqn:E; [|discriminate].
    destruct (Np.zip_with_r op l1 l2); [|discriminate].
    intros [= <-] [= <-] [= <-]. exists c. split; [exact E|reflexivity].
  - destruct (op a1 b2) as [c|]; [|discriminate].
    destruct (Np.zip_with_r op l1 l2) as [cs|] eqn:E; [|discriminate].
    intros [= <-] Ha Hb. cbn. apply (IH l2 cs i E Ha Hb).
Qed.

(** Two Python integers subtract exactly; the loop over integers never
    raises. *)
Lemma py_sub_int x y : Np.py_sub (Np.PyInt x) (Np.PyInt y) = Ok (Np.PyInt (x - y)).
Proof. reflexivity. Qed.

Lemma zip_with_r_ints l1 l2 :
  forallb Np.is_int l1 = true -> forallb Np.is_int l2 = true ->
  exists r, Np.zip_with_r Np.py_sub l1 l2 = Ok r.
Proof.
  revert l2.
  induction l1 as [|a l1 IH]; intros [|b l2] H1 H2; cbn [Np.zip_with_r];
    try (eexists; reflexivity).
  cbn in H1, H2. apply andb_true_iff in H1, H2.
  destruct H1 as [Ha H1], H2 as [Hb H2].
  destruct a; try discriminate. destruct b; try discriminate.
  rewrite py_sub_int. destruct (IH l2 H1 H2) as [r ->]. eexists. reflexivity.
Qed.

Lemma diff_numeric_total (v : Np.ndarray) :
  Np.is_numeric v = true -> exists rate, Np.diff v = Ok rate.
Proof.
  destruct v as [l|l|l|l|l]; cbn; try discriminate;
    try (intros _; eexists; reflexivity).
  intros H.
  destruct (zip_with_r_ints (Np.slice_1_None l) (Np.slice_None_m1 l)
              (forallb_slice_1_None _ l H) (forallb_slice_None_m1 _ l H))
    as [r ->].
  eexists. reflexivity.
Qed.

Lemma diff_size (v rate : Np.ndarray) :
  Np.diff v = Ok rate -> Np.size rate = (Np.size v - 1)%nat.
Proof.
  destruct v as [l|l|l|l|l]; cbn;
    try (intros [= <-]; cbn; apply length_differences).
  destruct (Np.zip_with_r _ _ _) as [r|e] eqn:E; [|discriminate].
  intros [= <-]. cbn.
  rewrite (length_zip_with_r _ _ _ _ E),
    length_slice_1_None, length_slice_None_m1. lia.
Qed.

Lemma wrap_int64_id (z : Z) : Np.in_int64 z -> Np.wrap_int64 z = z.
Proof.
  unfold Np.in_int64, Np.wrap_int64. intros H.
  rewrite Z.mod_small; lia.
Qed.

(** On an int64 column whose differences fit in 64 bits the result is the
    exact integer difference. *)
Lemma diff_int64_exact (l : list Z) (i : nat) :
  (i + 1 < List.length l)%nat ->
  Np.in_int64 (nth (i + 1) l 0 - nth i l 0) ->
  exists r, Np.diff (Np.ArrInt64 l) = Ok r /\
    Np.item r i = Some (Np.SInt64 (nth (i + 1) l 0 - nth i l 0)).
Proof.
  intros Hi Hr. eexists. split; [reflexivity|]. unfold Np.item.
  rewrite Nat.add_1_r in *.
  destruct (nth_error_differences Np.sub_int64 l i Hi) as (a & b & Ea & Eb & ->).
  rewrite (nth_error_nth _ _ 0 Ea), (nth_error_nth _ _ 0 Eb) in Hr.
  rewrite (nth_error_nth _ _ 0 Ea), (nth_error_nth _ _ 0 Eb).
  cbn. unfold Np.sub_int64. rewrite wrap_int64_id by exact Hr. reflexivity.
Qed.

(** On fewer than two elements every dtype gives the empty array. *)
Lemma diff_short (v : Np.ndarray) :
  (Np.size v < 2)%nat ->
  exists rate, Np.diff v = Ok rate /\ Np.size rate = 0%nat.
Proof.
  intros H.
  destruct v as [l|l|l|l|l]; cbn in H;
    destruct l as [|a [|b l]]; cbn in H; try lia;
    eexists; split; reflexivity.
Qed.

(** The object loop raises as soon as a text takes part in a subtraction. *)
Lemma py_sub_text_l s b : Np.py_sub (Np.PyStr s) b = Raise TypeError.
Proof. destruct b; reflexivity. Qed.

Lemma py_sub_text_r a s : Np.py_sub a (Np.PyStr s) = Raise TypeError.
Proof. destruct a; reflexivity. Qed.

Lemma py_sub_raises a b e :
  Np.is_str_or_float a = true -> Np.is_str_or_float b = true ->
  Np.py_sub a b = Raise e -> e = TypeError.
Proof. destruct a, b; cbn; congruence. Qed.

Lemma zip_with_r_raises_only l1 l2 e :
  forallb Np.is_str_or_float l1 = true ->
  forallb Np.is_str_or_float l2 = true ->
  Np.zip_with_r Np.py_sub l1 l2 = Raise e -> e = TypeError.
Proof.
  revert l2.
  induction l1 as [|a l1 IH]; intros [|b l2] H1 H2; cbn [Np.zip_with_r];
    try discriminate.
  cbn in H1, H2. apply andb_true_iff in H1, H2.
  destruct H1 as [Ha H1], H2 as [Hb H2].
  destruct (Np.py_sub a b) eqn:E.
  - destruct (Np.zip_with_r Np.py_sub l1 l2) eqn:E'; [discriminate|].
    intros [= <-]. exact (IH l2 H1 H2 E').
  - intros [= <-]. exact (py_sub_raises a b _ Ha Hb E).
Qed.

Lemma zip_with_r_raises_at l1 l2 i a b :
  nth_error l1 i = Some a -> nth_error l2 i = Some b ->
  is_raise (Np.py_sub a b) = true ->
  is_raise (Np.zip_with_r Np.py_sub l1 l2) = true.
Proof.
  revert l2 i. induction l1 as [|a1 l1 IH]; intros [|b2 l2] [|i]; cbn;
    try discriminate.
  - intros [= ->] [= ->] H. destruct (Np.py_sub a b); [discriminate|reflexivity].
  - intros Ha Hb H. destruct (Np.py_sub a1 b2); [|reflexivity].
    specialize (IH l2 i Ha Hb H).
    destruct (Np.zip_with_r Np.py_sub l1 l2); [discriminate|reflexivity].
Qed.

Lemma diff_text_raises (cells : list Np.pyobj) :
  forallb Np.is_str_or_float cells = true ->
  (exists s, In (Np.PyStr s) cells) -> (2 <= List.length cells)%nat ->
  Np.diff (Np.ArrObject cells) = Raise TypeError.
Proof.
  intros Hall [s Hin] Hlen.
  apply In_nth_error in Hin. destruct Hin as [i Hi].
  assert (Hlt : (i < List.length cells)%nat).
  { apply nth_error_Some. congruence. }
  assert (R : is_raise (Np.zip_with_r Np.py_sub
                (Np.slice_1_None cells) (Np.slice_None_m1 cells)) = true).
  { destruct i as [|j].
    - destruct (nth_error cells 1) as [a|] eqn:Ea.
      2:{ apply nth_error_None in Ea. lia. }
      apply (zip_with_r_raises_at _ _ 0%nat a (Np.PyStr s)).
      + rewrite nth_error_slice_1_None. exact Ea.
      + rewrite nth_error_slice_None_m1 by lia. exact Hi.
      + rewrite py_sub_text_r. reflexivity.
    - destruct (nth_error cells j) as [b|] eqn:Eb.
      2:{ apply nth_error_None in Eb. lia. }
      apply (zip_with_r_raises_at _ _ j (Np.PyStr s) b).
      + rewrite nth_error_slice_1_None. exact Hi.
      + rewrite nth_error_slice_None_m1 by lia. exact Eb.
      + rewrite py_sub_text_l. reflexivity. }
  cbn. destruct (Np.zip_with_r _ _ _) as [r|e] eqn:E; [discriminate|].
  apply zip_with_r_raises_only in E;
    [subst e; reflexivity
    |apply forallb_slice_1_None; exact Hall
    |apply forallb_slice_None_m1; exact Hall].
Qed.

(** ** Running the script *)

Ltac unfold_script :=
  unfold main, prepare, stmt_load, stmt_figure, stmt_trace_raw, stmt_diff,
    stmt_trace_rate, fig_show, fig_add_trace, pd_read_csv, sys_argv,
    load_df, load_fig, load_speed, store_df, store_fig, store_speed,
    emit, lift, bind, ret, Pd.read_csv, Pd.values, initial.

Ltac step := cbv beta iota zeta delta [df fig speed events].

Section Runs.

Variable w : World.
Variable path : string.
Hypothesis Harg : nth_error (argv w) 1 = Some path.

Lemma prepare_load_raises e :
  Pd.read_csv (fs w) path = Raise e ->
  prepare w initial =
    (Raise e, {| df := None; fig := None; speed := None;
                 events := [IoOpen path] |}).
Proof.
  intros H. unfold Pd.read_csv in H. unfold_script. rewrite Harg. step.
  destruct (fs w path); try discriminate; injection H as ->; reflexivity.
Qed.

Variable d : Pd.DataFrame.
Hypothesis Hfile : fs w path = Pd.Table d.

Lemma prepare_no_time e :
  Pd.getattr d "time" = Raise e ->
  prepare w initial = (Raise e, partial path d []).
Proof.
  intros H. unfold_script. rewrite Harg. step. rewrite Hfile. step.
  rewrite H. reflexivity.
Qed.

Variable t : Np.ndarray.
Hypothesis Htime : Pd.getattr d "time" = Ok t.

Lemma prepare_no_value e :
  Pd.getattr d "value" = Raise e ->
  prepare w initial = (Raise e, partial path d []).
Proof.
  intros H. unfold_script. rewrite Harg. step. rewrite Hfile. step.
  rewrite Htime, H. reflexivity.
Qed.

Variable v : Np.ndarray.
Hypothesis Hvalue : Pd.getattr d "value" = Ok v.

Lemma prepare_diff_raises e :
  Np.diff v = Raise e ->
  prepare w initial = (Raise e, partial path d [Go.mkScatter t v "lines"]).
Proof.
  intros H. unfold_script. rewrite Harg. step. rewrite Hfile. step.
  rewrite Htime, Hvalue. step. rewrite Hvalue, H. reflexivity.
Qed.

Variable rate : Np.ndarray.
Hypothesis Hdiff : Np.diff v = Ok rate.

Lemma prepare_ok :
  prepare w initial = (Ok tt, built path d t v rate).
Proof.
  unfold_script. rewrite Harg. step. rewrite Hfile. step.
  rewrite Htime, Hvalue. step. rewrite Hvalue, Hdiff. step.
  rewrite Htime. reflexivity.
Qed.

Lemma main_shows :
  renderer w = None ->
  main w initial =
    (Ok tt, {| df := Some d; fig := Some (two_traces t v rate);
               speed := Some rate;
               events := [IoOpen path; Displayed (two_traces t v rate)] |}).
Proof.
  intros Hr. unfold main, bind. rewrite prepare_ok.
  unfold fig_show, bind, load_fig, emit. step. rewrite Hr. reflexivity.
Qed.

Lemma main_render_raises (e : exn) :
  renderer w = Some (Raises e) ->
  main w initial = (Raise e, built path d t v rate).
Proof.
  intros Hr. unfold main, bind. rewrite prepare_ok.
  unfold fig_show, bind, load_fig, lift. step. rewrite Hr. reflexivity.
Qed.

Lemma main_silent :
  renderer w = Some Silent ->
  main w initial = (Ok tt, built path d t v rate).
Proof.
  intros Hr. unfold main, bind. rewrite prepare_ok.
  unfold fig_show, bind, load_fig, ret. step. rewrite Hr. reflexivity.
Qed.

Lemma python_show_returns :
  (forall e : exn, renderer w <> Some (Raises e)) ->
  exit_code (python w) = 0.
Proof.
  intros Hr. unfold python.
  destruct (renderer w) as [[e|]|] eqn:E.
  - destruct (Hr e eq_refl).
  - rewrite (main_silent E). reflexivity.
  - rewrite (main_shows E). reflexivity.
Qed.

Lemma main_final_state :
  df (snd (main w initial)) = Some d /\
  fig (snd (main w initial)) = Some (two_traces t v rate) /\
  speed (snd (main w initial)) = Some rate.
Proof.
  destruct (renderer w) as [[e|]|] eqn:Hr.
  - rewrite (main_render_raises e Hr). repeat split.
  - rewrite (main_silent Hr). repeat split.
  - rewrite (main_shows Hr). repeat split.
Qed.

End Runs.

Lemma prepare_noarg (w : World) :
  nth_error (argv w) 1 = None ->
  prepare w initial = (Raise IndexError, initial).
Proof. intros H. unfold_script. rewrite H. reflexivity. Qed.

Lemma main_prepare_raises (w : World) e s :
  prepare w initial = (Raise e, s) -> main w initial = (Raise e, s).
Proof. intros H. unfold main, bind. rewrite H. reflexivity. Qed.

Lemma python_raises (w : World) e s :
  main w initial = (Raise e, s) ->
  python w = {| exit_code := 1;
                stderr := ["Traceback (most recent call last):"; exn_name e];
                final := s |}.
Proof. intros H. unfold python. rewrite H. reflexivity. Qed.

Lemma python_ok (w : World) s :
  main w initial = (Ok tt, s) ->
  python w = {| exit_code := 0; stderr := []; final := s |}.
Proof. intros H. unfold python. rewrite H. reflexivity. Qed.

(** ** Slices of a column *)

Lemma lookup_In name cols c :
  Pd.lookup name cols = Some c -> In (name, c) cols.
Proof.
  induction cols as [|[k c'] cols IH]; cbn; [discriminate|].
  destruct (String.eqb k name) eqn:E.
  - apply String.eqb_eq in E. intros [= ->]. left. congruence.
  - intros H. right. apply IH. exact H.
Qed.

Lemma getattr_size d n name c :
  Pd.nrows_is d n -> Pd.getattr d name = Ok c -> Np.size c = n.
Proof.
  intros Hn. unfold Pd.getattr.
  destruct (Pd.lookup name (Pd.columns d)) as [c'|] eqn:E; [|discriminate].
  intros [= <-]. apply (Hn name). apply lookup_In. exact E.
Qed.

Lemma size_getitem_None_m1 (t : Np.ndarray) :
  Np.size (Np.getitem_None_m1 t) = (Np.size t - 1)%nat.
Proof. destruct t; cbn; apply length_slice_None_m1. Qed.

Lemma item_getitem_None_m1 (t : Np.ndarray) (i : nat) :
  (i + 1 < Np.size t)%nat ->
  Np.item (Np.getitem_None_m1 t) i = Np.item t i.
Proof.
  rewrite Nat.add_1_r.
  destruct t; cbn [Np.size]; intros H; unfold Np.item, Np.getitem_None_m1;
    rewrite nth_error_slice_None_m1 by exact H; reflexivity.
Qed.

Lemma item_getitem_None_m1_out (t : Np.ndarray) (i : nat) :
  (Np.size t - 1 <= i)%nat ->
  Np.item (Np.getitem_None_m1 t) i = None.
Proof.
  destruct t; cbn [Np.size]; intros H; unfold Np.item, Np.getitem_None_m1;
    rewrite nth_error_slice_None_m1_out by exact H; reflexivity.
Qed.

(** ** Effects and exit status *)

(** The effects of the statements before [fig.show()]: one read of the
    path given as [sys.argv[1]], nothing else. *)
Lemma prepare_events (w : World) :
  events (snd (prepare w initial)) =
    match nth_error (argv w) 1 with
    | Some p => [IoOpen p]
    | None => []
    end.
Proof.
  destruct (nth_error (argv w) 1) as [p|] eqn:Harg.
  2:{ rewrite (prepare_noarg w Harg). reflexivity. }
  destruct (Pd.read_csv (fs w) p) as [d|e] eqn:Hload.
  2:{ rewrite (prepare_load_raises w p Harg e Hload). reflexivity. }
  assert (Hfile : fs w p = Pd.Table d).
  { unfold Pd.read_csv in Hload. destruct (fs w p); congruence. }
  destruct (Pd.getattr d "time") as [t|e] eqn:Ht.
  2:{ rewrite (prepare_no_time w p Harg d Hfile e Ht). reflexivity. }
  destruct (Pd.getattr d "value") as [v|e] eqn:Hv.
  2:{ rewrite (prepare_no_value w p Harg d Hfile t Ht e Hv). reflexivity. }
  destruct (Np.diff v) as [r|e] eqn:Hd.
  - rewrite (prepare_ok w p Harg d Hfile t Ht v Hv r Hd). reflexivity.
  - rewrite (prepare_diff_raises w p Harg d Hfile t Ht v Hv e Hd). reflexivity.
Qed.

Lemma prepare_same_input (w w' : World) :
  nth_error (argv w') 1 = nth_error (argv w) 1 ->
  (forall p, fs w' p = fs w p) ->
  prepare w' initial = prepare w initial.
Proof.
  intros Ha Hf. unfold_script. rewrite Ha.
  destruct (nth_error (argv w) 1) as [p|]; step; [|reflexivity].
  rewrite Hf. reflexivity.
Qed.

(** Either a statement before [fig.show()] raises, or the load, both
    column lookups and the differencing all returned and the figure is
    built. *)
Lemma prepare_cases (w : World) :
  (exists e s, prepare w initial = (Raise e, s)) \/
  (exists path d t v rate,
     nth_error (argv w) 1 = Some path /\
     fs w path = Pd.Table d /\
     Pd.getattr d "time" = Ok t /\
     Pd.getattr d "value" = Ok v /\
     Np.diff v = Ok rate /\
     prepare w initial = (Ok tt, built path d t v rate)).
Proof.
  destruct (nth_error (argv w) 1) as [p|] eqn:Harg.
  2:{ left. eexists _, _. apply (prepare_noarg w Harg). }
  destruct (Pd.read_csv (fs w) p) as [d|e] eqn:Hload.
  2:{ left. eexists _, _. apply (prepare_load_raises w p Harg e Hload). }
  assert (Hfile : fs w p = Pd.Table d).
  { unfold Pd.read_csv in Hload. destruct (fs w p); congruence. }
  destruct (Pd.getattr d "time") as [t|e] eqn:Ht.
  2:{ left. eexists _, _. apply (prepare_no_time w p Harg d Hfile e Ht). }
  destruct (Pd.getattr d "value") as [v|e] eqn:Hv.
  2:{ left. eexists _, _. apply (prepare_no_value w p Harg d Hfile t Ht e Hv). }
  destruct (Np.diff v) as [r|e] eqn:Hd.
  - right. exists p, d, t, v, r. repeat split; try assumption.
    apply (prepare_ok w p Harg d Hfile t Ht v Hv r Hd).
  - left. eexists _, _.
    apply (prepare_diff_raises w p Harg d Hfile t Ht v Hv e Hd).
Qed.

(** Every run ends in one of three ways: an exception, with nothing
    displayed; the figure built and displayed; the figure built and
    [fig.show()] back without a display. *)
Lemma main_cases (w : World) :
  (exists e s, main w initial = (Raise e, s) /\
     (forall f, ~ In (Displayed f) (events s)) /\
     (forall e', renderer w = Some (Raises e') ->
        (exists s', prepare w initial = (Raise e, s')) \/ e = e')) \/
  (exists path d t v rate,
     nth_error (argv w) 1 = Some path /\
     fs w path = Pd.Table d /\
     Pd.getattr d "time" = Ok t /\
     Pd.getattr d "value" = Ok v /\
     Np.diff v = Ok rate /\
     ((renderer w = None /\
       main w initial = (Ok tt, shown path d t v rate)) \/
      (renderer w = Some Silent /\
       main w initial = (Ok tt, built path d t v rate)))).
Proof.
  destruct (prepare_cases w) as [(e & s & Hp)|
    (path & d & t & v & rate & Harg & Hfile & Ht & Hv & Hd & Hp)].
  - left. exists e, s. split; [apply main_prepare_raises; exact Hp|]. split.
    + pose proof (prepare_events w) as He. rewrite Hp in He. cbn [snd] in He.
      intros f. rewrite He. destruct (nth_error (argv w) 1); cbn;
        intuition discriminate.
    + intros e' _. left. exists s. exact Hp.
  - destruct (renderer w) as [[e|]|] eqn:Hr.
    + left. exists e, (built path d t v rate).
      split; [apply (main_render_raises w path Harg d Hfile t Ht v Hv rate Hd e Hr)|].
      split.
      * intros f [H|[]]. discriminate H.
      * intros e' [= ->]. right. reflexivity.
    + right. exists path, d, t, v, rate. repeat split; try assumption.
      right. split; [reflexivity|].
      apply (main_silent w path Harg d Hfile t Ht v Hv rate Hd Hr).
    + right. exists path, d, t, v, rate. repeat split; try assumption.
      left. split; [reflexivity|].
      apply (main_shows w path Harg d Hfile t Ht v Hv rate Hd Hr).
Qed.

Lemma main_raise_no_display (w : World) e s f :
  main w initial = (Raise e, s) -> ~ In (Displayed f) (events s).
Proof.
  intros E.
  destruct (main_cases w) as [(e' & s' & E' & Hno & _)|
    (path & d & t & v & rate & _ & _ & _ & _ & _ & [[_ E']|[_ E']])];
    rewrite E' in E; try discriminate E.
  injection E as _ <-. apply Hno.
Qed.

Lemma main_render_fails (w : World) (e : exn) :
  renderer w = Some (Raises e) -> exists e' s, main w initial = (Raise e', s).
Proof.
  intros Hr.
  destruct (main_cases w) as [(e' & s' & E' & _)|
    (path & d & t & v & rate & _ & _ & _ & _ & _ & [[Hr' _]|[Hr' _]])];
    [exists e', s'; exact E'|congruence|congruence].
Qed.

(** ** The wrap-around of the 64-bit dtypes *)

Lemma wrap_int64_range z : Np.in_int64 (Np.wrap_int64 z).
Proof.
  unfold Np.in_int64, Np.wrap_int64.
  pose proof (Z.mod_pos_bound (z + 2 ^ 63) (2 ^ 64) ltac:(lia)). lia.
Qed.

Lemma wrap_int64_congruent z : exists k, Np.wrap_int64 z = z + k * 2 ^ 64.
Proof.
  exists (- ((z + 2 ^ 63) / 2 ^ 64)). unfold Np.wrap_int64.
  pose proof (Z.div_mod (z + 2 ^ 63) (2 ^ 64) ltac:(lia)). lia.
Qed.

Lemma wrap_uint64_range z : 0 <= Np.wrap_uint64 z < 2 ^ 64.
Proof. unfold Np.wrap_uint64. apply Z.mod_pos_bound. lia. Qed.

Lemma wrap_uint64_congruent z : exists k, Np.wrap_uint64 z = z + k * 2 ^ 64.
Proof.
  exists (- (z / 2 ^ 64)). unfold Np.wrap_uint64.
  pose proof (Z.div_mod z (2 ^ 64) ltac:(lia)). lia.
Qed.

Lemma wrap_uint64_id z : 0 <= z < 2 ^ 64 -> Np.wrap_uint64 z = z.
Proof. intros H. unfold Np.wrap_uint64. apply Z.mod_small. exact H. Qed.

(** ** The claims *)

(** C1 as stated fails: on the int64 column [-2^63, 2^63 - 1], a valid
    table of two numeric entries, the one rate the script computes is -1,
    not value[1] - value[0] = 2^64 - 1. *)
Lemma C1_counterexample :
  Pd.getattr Examples.extremes "value"
    = Ok (Np.ArrInt64 [- 2 ^ 63; 2 ^ 63 - 1]) /\
  Np.is_numeric (Np.ArrInt64 [- 2 ^ 63; 2 ^ 63 - 1]) = true /\
  speed (snd (main (Examples.world_of Examples.extremes) initial))
    = Some (Np.ArrInt64 [-1]) /\
  -1 <> (2 ^ 63 - 1) - (- 2 ^ 63).
Proof. repeat split. discriminate. Qed.

(** C1, amended: for a table whose value column has N >= 2 numeric
    entries the script binds [speed] to [np.diff] of the value column
    alone, with no normalization by elapsed time: N-1 elements, element i
    being value[i+1] - value[i] in the arithmetic of the column's dtype.
    For int64 that is the difference brought into [-2^63, 2^63) by a
    multiple of 2^64, the exact difference whenever it fits; for uint64
    the difference brought into [0, 2^64) by a multiple of 2^64, exact
    whenever it fits; for float64 the binary64 difference; for a column of
    Python integers the exact difference. *)
Theorem C1_rate_is_dtype_difference (w : World) path d t v :
  nth_error (argv w) 1 = Some path ->
  fs w path = Pd.Table d ->
  Pd.getattr d "time" = Ok t ->
  Pd.getattr d "value" = Ok v ->
  Np.is_numeric v = true ->
  (2 <= Np.size v)%nat ->
  exists rate,
    Np.diff v = Ok rate /\
    speed (snd (main w initial)) = Some rate /\
    Np.size rate = (Np.size v - 1)%nat /\
    (forall l i a b, v = Np.ArrInt64 l ->
       nth_error l (i + 1) = Some a -> nth_error l i = Some b ->
       exists z, Np.item rate i = Some (Np.SInt64 z) /\
         - 2 ^ 63 <= z < 2 ^ 63 /\
         (exists k, z = a - b + k * 2 ^ 64) /\
         (- 2 ^ 63 <= a - b < 2 ^ 63 -> z = a - b)) /\
    (forall l i a b, v = Np.ArrUInt64 l ->
       nth_error l (i + 1) = Some a -> nth_error l i = Some b ->
       exists z, Np.item rate i = Some (Np.SUInt64 z) /\
         0 <= z < 2 ^ 64 /\
         (exists k, z = a - b + k * 2 ^ 64) /\
         (0 <= a - b < 2 ^ 64 -> z = a - b)) /\
    (forall l i a b, v = Np.ArrFloat64 l ->
       nth_error l (i + 1) = Some a -> nth_error l i = Some b ->
       Np.item rate i = Some (Np.SFloat64 (PrimFloat.sub a b))) /\
    (forall l i a b, v = Np.ArrObject l ->
       nth_error l (i + 1) = Some (Np.PyInt a) ->
       nth_error l i = Some (Np.PyInt b) ->
       Np.item rate i = Some (Np.SObject (Np.PyInt (a - b)))).
Proof.
  intros Harg Hfile Htime Hvalue Hnum Hlen.
  destruct (diff_numeric_total v Hnum) as [rate Hdiff].
  exists rate. split; [exact Hdiff|].
  destruct (main_final_state w path Harg d Hfile t Htime v Hvalue rate Hdiff)
    as (_ & _ & Hs).
  split; [exact Hs|]. split; [apply diff_size; exact Hdiff|].
  assert (Hpair : forall (A : Type) (l : list A) i a b,
            nth_error l (i + 1) = Some a -> nth_error l i = Some b ->
            nth_error (Np.slice_1_None l) i = Some a /\
            nth_error (Np.slice_None_m1 l) i = Some b).
  { intros A l i a b Ea Eb. rewrite Nat.add_1_r in Ea.
    assert (S i < List.length l)%nat by (apply nth_error_Some; congruence).
    rewrite nth_error_slice_1_None, nth_error_slice_None_m1 by assumption.
    split; assumption. }
  split; [|split; [|split]]; intros l i a b -> Ea Eb;
    destruct (Hpair _ l i a b Ea Eb) as [Ha Hb] || 
    destruct (Hpair _ l i _ _ Ea Eb) as [Ha Hb];
    cbn [Np.diff] in Hdiff.
  - injection Hdiff as <-. unfold Np.item.
    rewrite (nth_error_zip_with Np.sub_int64 _ _ i a b Ha Hb).
    exists (Np.sub_int64 a b). unfold Np.sub_int64.
    split; [reflexivity|]. split; [apply wrap_int64_range|].
    split; [apply wrap_int64_congruent|].
    intros H. apply wrap_int64_id. exact H.
  - injection Hdiff as <-. unfold Np.item.
    rewrite (nth_error_zip_with Np.sub_uint64 _ _ i a b Ha Hb).
    exists (Np.sub_uint64 a b). unfold Np.sub_uint64.
    split; [reflexivity|]. split; [apply wrap_uint64_range|].
    split; [apply wrap_uint64_congruent|].
    intros H. apply wrap_uint64_id. exact H.
  - injection Hdiff as <-. unfold Np.item.
    rewrite (nth_error_zip_with Np.sub_float64 _ _ i a b Ha Hb).
    reflexivity.
  - destruct (Np.zip_with_r Np.py_sub (Np.slice_1_None l) (Np.slice_None_m1 l))
      as [r|e] eqn:E; [|discriminate Hdiff].
    injection Hdiff as <-. unfold Np.item.
    destruct (nth_error_zip_with_r _ _ _ _ i _ _ E Ha Hb) as (c & Ec & ->).
    rewrite py_sub_int in Ec. injection Ec as <-. reflexivity.
Qed.

Lemma C1_witness :
  exists rate,
    Np.diff (Np.ArrInt64 [10; 12; 9; 9; 15]) = Ok rate /\
    speed (snd (main (Examples.world_of Examples.ramp5) initial)) = Some rate /\
    Np.size rate = (5 - 1)%nat /\
    (forall l i a b, Np.ArrInt64 [10; 12; 9; 9; 15] = Np.ArrInt64 l ->
       nth_error l (i + 1) = Some a -> nth_error l i = Some b ->
       exists z, Np.item rate i = Some (Np.SInt64 z) /\
         - 2 ^ 63 <= z < 2 ^ 63 /\
         (exists k, z = a - b + k * 2 ^ 64) /\
         (- 2 ^ 63 <= a - b < 2 ^ 63 -> z = a - b)) /\
    (forall l i a b, Np.ArrInt64 [10; 12; 9; 9; 15] = Np.ArrUInt64 l ->
       nth_error l (i + 1) = Some a -> nth_error l i = Some b ->
       exists z, Np.item rate i = Some (Np.SUInt64 z) /\
         0 <= z < 2 ^ 64 /\
         (exists k, z = a - b + k * 2 ^ 64) /\
         (0 <= a - b < 2 ^ 64 -> z = a - b)) /\
    (forall l i a b, Np.ArrInt64 [10; 12; 9; 9; 15] = Np.ArrFloat64 l ->
       nth_error l (i + 1) = Some a -> nth_error l i = Some b ->
       Np.item rate i = Some (Np.SFloat64 (PrimFloat.sub a b))) /\
    (forall l i a b, Np.ArrInt64 [10; 12; 9; 9; 15] = Np.ArrObject l ->
       nth_error l (i + 1) = Some (Np.PyInt a) ->
       nth_error l i = Some (Np.PyInt b) ->
       Np.item rate i = Some (Np.SObject (Np.PyInt (a - b)))).
Proof.
  apply (C1_rate_is_dtype_difference (Examples.world_of Examples.ramp5)
           "ramp.csv" Examples.ramp5 (Np.ArrInt64 [0; 1; 2; 3; 4])
           (Np.ArrInt64 [10; 12; 9; 9; 15])).
  - reflexivity.
  - reflexivity.
  - reflexivity.
  - reflexivity.
  - reflexivity.
  - simpl. lia.
Defined.

(** C2: whenever the differencing step yields a rate sequence for a table
    of N rows, the second trace of the figure has the rate sequence as its
    y-values and [time[:-1]] as its x-values: N-1 of each, the i-th
    x-value being time[i], the time of the sample the interval starts at,
    in file order, and no x-value from index N-1 on. *)
Theorem C2_rate_trace_against_start_times (w : World) path d n t v rate :
  nth_error (argv w) 1 = Some path ->
  fs w path = Pd.Table d ->
  Pd.nrows_is d n ->
  Pd.getattr d "time" = Ok t ->
  Pd.getattr d "value" = Ok v ->
  Np.diff v = Ok rate ->
  exists raw rt,
    fig (snd (main w initial)) = Some {| Go.data := [raw; rt] |} /\
    Go.x rt = Np.getitem_None_m1 t /\
    Go.y rt = rate /\
    Np.size (Go.x rt) = (n - 1)%nat /\
    Np.size (Go.y rt) = (n - 1)%nat /\
    (forall i, (i + 1 < n)%nat -> Np.item (Go.x rt) i = Np.item t i) /\
    (forall i, (n - 1 <= i)%nat -> Np.item (Go.x rt) i = None).
Proof.
  intros Harg Hfile Hrows Htime Hvalue Hdiff.
  pose proof (getattr_size d n "time" t Hrows Htime) as Ht.
  pose proof (getattr_size d n "value" v Hrows Hvalue) as Hv.
  destruct (main_final_state w path Harg d Hfile t Htime v Hvalue rate Hdiff)
    as (_ & Hf & _).
  exists (Go.mkScatter t v "lines"),
    (Go.mkScatter (Np.getitem_None_m1 t) rate "lines").
  split; [exact Hf|]. cbn [Go.x Go.y Go.mkScatter].
  split; [reflexivity|]. split; [reflexivity|].
  split; [rewrite size_getitem_None_m1, Ht; reflexivity|]. split.
  - rewrite (diff_size v rate Hdiff), Hv. reflexivity.
  - split; intros i Hi.
    + apply item_getitem_None_m1. rewrite Ht. exact Hi.
    + apply item_getitem_None_m1_out. rewrite Ht. exact Hi.
Qed.

Lemma C2_witness :
  exists raw rt,
    fig (snd (main (Examples.world_of Examples.ramp5) initial))
      = Some {| Go.data := [raw; rt] |} /\
    Go.x rt = Np.getitem_None_m1 (Np.ArrInt64 [0; 1; 2; 3; 4]) /\
    Go.y rt = Np.ArrInt64 [2; -3; 0; 6] /\
    Np.size (Go.x rt) = (5 - 1)%nat /\
    Np.size (Go.y rt) = (5 - 1)%nat /\
    (forall i, (i + 1 < 5)%nat ->
       Np.item (Go.x rt) i = Np.item (Np.ArrInt64 [0; 1; 2; 3; 4]) i) /\
    (forall i, (5 - 1 <= i)%nat -> Np.item (Go.x rt) i = None).
Proof.
  apply (C2_rate_trace_against_start_times (Examples.world_of Examples.ramp5)
           "ramp.csv" Examples.ramp5 5 (Np.ArrInt64 [0; 1; 2; 3; 4])
           (Np.ArrInt64 [10; 12; 9; 9; 15]) (Np.ArrInt64 [2; -3; 0; 6])).
  - reflexivity.
  - reflexivity.
  - intros k c H. simpl in H.
    destruct H as [H|[H|H]]; [| |destruct H]; inversion H; reflexivity.
  - reflexivity.
  - reflexivity.
  - reflexivity.
Defined.

(** C3: on value = [10, 12, 9, 9, 15] with time = [0, 1, 2, 3, 4] the
    script computes the rate sequence [2, -3, 0, 6] and plots it against
    the times [0, 1, 2, 3]; the same holds when the value column is read
    as floats. *)
Theorem C3_worked_example :
  let s := snd (main (Examples.world_of Examples.ramp5) initial) in
  let sf := snd (main (Examples.world_of Examples.ramp5f) initial) in
  speed s = Some (Np.ArrInt64 [2; -3; 0; 6]) /\
  option_map Go.data (fig s) =
    Some [Go.mkScatter (Np.ArrInt64 [0; 1; 2; 3; 4])
            (Np.ArrInt64 [10; 12; 9; 9; 15]) "lines";
          Go.mkScatter (Np.ArrInt64 [0; 1; 2; 3])
            (Np.ArrInt64 [2; -3; 0; 6]) "lines"] /\
  speed sf = Some (Np.ArrFloat64 [2; -3; 0; 6]%float) /\
  option_map (fun f => map Go.x (Go.data f)) (fig sf) =
    Some [Np.ArrInt64 [0; 1; 2; 3; 4]; Np.ArrInt64 [0; 1; 2; 3]].
Proof. vm_compute. repeat split. Qed.

(** C4: for a table of fewer than two rows, whatever the dtype of its
    value column, [np.diff] returns the empty array, every statement up to
    [fig.show()] completes with the empty rate trace in place, and the
    script as a whole succeeds when the display does; in particular
    value = [5] gives []. *)
Theorem C4_short_table_gives_empty_rate (w : World) path d t v :
  nth_error (argv w) 1 = Some path ->
  fs w path = Pd.Table d ->
  Pd.getattr d "time" = Ok t ->
  Pd.getattr d "value" = Ok v ->
  (Np.size v < 2)%nat ->
  exists rate,
    Np.diff v = Ok rate /\
    Np.size rate = 0%nat /\
    prepare w initial = (Ok tt, built path d t v rate) /\
    (renderer w = None -> fst (main w initial) = Ok tt) /\
    Np.diff (Np.ArrInt64 [5]) = Ok (Np.ArrInt64 []) /\
    Np.diff (Np.ArrFloat64 [5%float]) = Ok (Np.ArrFloat64 []).
Proof.
  intros Harg Hfile Htime Hvalue Hlen.
  destruct (diff_short v Hlen) as (rate & Hdiff & Hsize).
  exists rate. split; [exact Hdiff|]. split; [exact Hsize|]. split.
  - apply (prepare_ok w path Harg d Hfile t Htime v Hvalue rate Hdiff).
  - split; [|split; reflexivity].
    intros Hr.
    rewrite (main_shows w path Harg d Hfile t Htime v Hvalue rate Hdiff Hr).
    reflexivity.
Qed.

Lemma C4_witness :
  exists rate,
    Np.diff (Np.ArrInt64 [5]) = Ok rate /\
    Np.size rate = 0%nat /\
    prepare (Examples.world_of Examples.single) initial
      = (Ok tt, built "ramp.csv" Examples.single (Np.ArrInt64 [0])
                  (Np.ArrInt64 [5]) rate) /\
    (renderer (Examples.world_of Examples.single) = None ->
     fst (main (Examples.world_of Examples.single) initial) = Ok tt) /\
    Np.diff (Np.ArrInt64 [5]) = Ok (Np.ArrInt64 []) /\
    Np.diff (Np.ArrFloat64 [5%float]) = Ok (Np.ArrFloat64 []).
Proof.
  apply (C4_short_table_gives_empty_rate (Examples.world_of Examples.single)
           "ramp.csv" Examples.single (Np.ArrInt64 [0]) (Np.ArrInt64 [5])).
  - reflexivity.
  - reflexivity.
  - reflexivity.
  - reflexivity.
  - simpl. lia.
Defined.

(** C5 as stated fails: a one-row file whose value field is the text abc
    is loaded without any exception, and the whole script succeeds. *)
Lemma C5_counterexample :
  Pd.getattr Examples.text1 "value" = Ok (Np.ArrObject [Np.PyStr "abc"]) /\
  ~ (exists e,
       Pd.read_csv (fs (Examples.world_of Examples.text1)) "ramp.csv" = Raise e) /\
  fst (main (Examples.world_of Examples.text1) initial) = Ok tt /\
  exit_code (python (Examples.world_of Examples.text1)) = 0.
Proof.
  split; [reflexivity|]. split; [|split; reflexivity].
  intros [e H]. vm_compute in H. discriminate H.
Qed.

(** C5, amended: a file with a non-numeric entry in the value column is
    loaded without an exception and the script goes on with the table as
    pandas returns it.  Where the column comes back as a float column (a
    missing-value marker read as NaN) or a bool column, every statement up
    to [fig.show()] completes and the exit status is 0 unless the display
    raises.  Where it comes back as a text column, the entries are plotted
    as read; with two or more rows the differencing step then raises
    [TypeError], after the raw trace was added, nothing is displayed and
    the exit status is 1; with fewer than two rows every statement up to
    [fig.show()] completes and the exit status is 0 unless the display
    raises. *)
Theorem C5_non_numeric_value_column (w : World) path d t v :
  nth_error (argv w) 1 = Some path ->
  fs w path = Pd.Table d ->
  Pd.getattr d "time" = Ok t ->
  Pd.getattr d "value" = Ok v ->
  df (final (python w)) = Some d /\
  ((exists l, v = Np.ArrFloat64 l) \/ (exists l, v = Np.ArrBool l) ->
     (exists rate, prepare w initial = (Ok tt, built path d t v rate)) /\
     ((forall e : exn, renderer w <> Some (Raises e)) ->
      exit_code (python w) = 0)) /\
  (forall cells, v = Np.ArrObject cells ->
     forallb Np.is_str_or_float cells = true ->
     (exists s, In (Np.PyStr s) cells) ->
     ((2 <= List.length cells)%nat ->
        main w initial =
          (Raise TypeError, partial path d [Go.mkScatter t v "lines"]) /\
        exit_code (python w) = 1) /\
     ((List.length cells < 2)%nat ->
        (exists rate, prepare w initial = (Ok tt, built path d t v rate)) /\
        ((forall e : exn, renderer w <> Some (Raises e)) ->
         exit_code (python w) = 0))).
Proof.
  intros Harg Hfile Htime Hvalue.
  assert (Hok : forall rate, Np.diff v = Ok rate ->
            (exists rate, prepare w initial = (Ok tt, built path d t v rate)) /\
            ((forall e : exn, renderer w <> Some (Raises e)) ->
             exit_code (python w) = 0)).
  { intros rate Hdiff. split.
    - exists rate. apply (prepare_ok w path Harg d Hfile t Htime v Hvalue rate Hdiff).
    - apply (python_show_returns w path Harg d Hfile t Htime v Hvalue rate Hdiff). }
  split; [|split].
  - destruct (Np.diff v) as [rate|e] eqn:Hdiff.
    + destruct (main_final_state w path Harg d Hfile t Htime v Hvalue rate Hdiff)
        as (Hd & _ & _).
      unfold python. destruct (main w initial) as [[u|e] s]; exact Hd.
    + rewrite (python_raises w _ _
                 (main_prepare_raises w _ _
                    (prepare_diff_raises w path Harg d Hfile t Htime v Hvalue
                       e Hdiff))).
      reflexivity.
  - intros [[l ->]|[l ->]]; eapply Hok; reflexivity.
  - intros cells -> Hall Htext. split.
    + intros Hlen.
      assert (E : main w initial =
                (Raise TypeError,
                 partial path d [Go.mkScatter t (Np.ArrObject cells) "lines"])).
      { apply main_prepare_raises.
        apply (prepare_diff_raises w path Harg d Hfile t Htime _ Hvalue).
        apply diff_text_raises; assumption. }
      split; [exact E|]. rewrite (python_raises w _ _ E). reflexivity.
    + intros Hlen.
      destruct (diff_short (Np.ArrObject cells) Hlen) as (rate & Hdiff & _).
      apply (Hok rate Hdiff).
Qed.

Lemma C5_witness :
  (main (Examples.world_of Examples.text2) initial =
     (Raise TypeError,
      partial "ramp.csv" Examples.text2
        [Go.mkScatter (Np.ArrInt64 [0; 1])
           (Np.ArrObject [Np.PyStr "10"; Np.PyStr "abc"]) "lines"]) /\
   exit_code (python (Examples.world_of Examples.text2)) = 1) /\
  exit_code (python (Examples.world_of Examples.with_nan)) = 0.
Proof.
  split.
  - destruct (C5_non_numeric_value_column (Examples.world_of Examples.text2)
                "ramp.csv" Examples.text2 (Np.ArrInt64 [0; 1])
                (Np.ArrObject [Np.PyStr "10"; Np.PyStr "abc"])
                eq_refl eq_refl eq_refl eq_refl) as (_ & _ & H).
    apply (H [Np.PyStr "10"; Np.PyStr "abc"] eq_refl eq_refl).
    + exists "abc". simpl. right. left. reflexivity.
    + simpl. lia.
  - destruct (C5_non_numeric_value_column (Examples.world_of Examples.with_nan)
                "ramp.csv" Examples.with_nan (Np.ArrInt64 [0; 1; 2])
                (Np.ArrFloat64 [1; nan; 3]%float)
                eq_refl eq_refl eq_refl eq_refl) as (_ & H & _).
    apply H.
    + left. exists [1; nan; 3]%float. reflexivity.
    + intros e. discriminate.
Defined.

(** C6 as stated fails on its first half: a file with no value column is
    loaded without any exception; the script fails later, with
    [AttributeError], when the column is looked up. *)
Lemma C6_counterexample :
  Pd.lookup "value" (Pd.columns Examples.no_value) = None /\
  ~ (exists e,
       Pd.read_csv (fs (Examples.world_of Examples.no_value)) "ramp.csv"
       = Raise e) /\
  fst (main (Examples.world_of Examples.no_value) initial)
    = Raise (AttributeError "value").
Proof.
  split; [reflexivity|]. split; [|reflexivity].
  intros [e H]. vm_compute in H. discriminate H.
Qed.

(** C6, amended: a file that lacks the value column is loaded without an
    exception; the first lookup of a missing column ([time], then
    [value]) raises [AttributeError], when the figure is still empty.  A
    path that does not exist makes [pd.read_csv] raise
    [FileNotFoundError].  Either exception is uncaught: nothing is
    displayed, a traceback goes to standard error and the exit status
    is 1. *)
Theorem C6_missing_column_or_file (w : World) path :
  nth_error (argv w) 1 = Some path ->
  (forall d, fs w path = Pd.Table d ->
     Pd.lookup "value" (Pd.columns d) = None ->
     Pd.read_csv (fs w) path = Ok d /\
     main w initial =
       (Raise (AttributeError
                 match Pd.lookup "time" (Pd.columns d) with
                 | Some _ => "value"
                 | None => "time"
                 end),
        partial path d []) /\
     exit_code (python w) = 1 /\ stderr (python w) <> []) /\
  (fs w path = Pd.Missing ->
     main w initial =
       (Raise (FileNotFoundError path),
        {| df := None; fig := None; speed := None;
           events := [IoOpen path] |}) /\
     exit_code (python w) = 1 /\ stderr (python w) <> []).
Proof.
  intros Harg. split.
  - intros d Hfile Hno.
    split; [unfold Pd.read_csv; rewrite Hfile; reflexivity|].
    assert (E : main w initial =
              (Raise (AttributeError
                        match Pd.lookup "time" (Pd.columns d) with
                        | Some _ => "value"
                        | None => "time"
                        end), partial path d [])).
    { apply main_prepare_raises.
      destruct (Pd.lookup "time" (Pd.columns d)) as [t|] eqn:Et.
      - apply (prepare_no_value w path Harg d Hfile t).
        + unfold Pd.getattr. rewrite Et. reflexivity.
        + unfold Pd.getattr. rewrite Hno. reflexivity.
      - apply (prepare_no_time w path Harg d Hfile).
        unfold Pd.getattr. rewrite Et. reflexivity. }
    split; [exact E|].
    rewrite (python_raises w _ _ E). split; [reflexivity|discriminate].
  - intros Hfile.
    assert (E : main w initial =
              (Raise (FileNotFoundError path),
               {| df := None; fig := None; speed := None;
                  events := [IoOpen path] |})).
    { apply main_prepare_raises, (prepare_load_raises w path Harg).
      unfold Pd.read_csv. rewrite Hfile. reflexivity. }
    split; [exact E|].
    rewrite (python_raises w _ _ E). split; [reflexivity|discriminate].
Qed.

Lemma C6_witness :
  (main (Examples.world_of Examples.no_value) initial =
     (Raise (AttributeError "value"), partial "ramp.csv" Examples.no_value []) /\
   exit_code (python (Examples.world_of Examples.no_value)) = 1) /\
  (main Examples.world_missing initial =
     (Raise (FileNotFoundError "nowhere.csv"),
      {| df := None; fig := None; speed := None;
         events := [IoOpen "nowhere.csv"] |}) /\
   exit_code (python Examples.world_missing) = 1).
Proof.
  split.
  - destruct (C6_missing_column_or_file (Examples.world_of Examples.no_value)
                "ramp.csv" eq_refl) as [H _].
    destruct (H Examples.no_value eq_refl eq_refl) as (_ & E & X & _).
    split; [exact E|exact X].
  - destruct (C6_missing_column_or_file Examples.world_missing
                "nowhere.csv" eq_refl) as [_ H].
    destruct (H eq_refl) as (E & X & _).
    split; [exact E|exact X].
Defined.

(** C7: for a table with a time column and a numeric value column, the
    figure the script displays holds exactly two traces: the raw
    (time, value) trace first, the rate trace second, both in mode
    "lines", and neither names an axis of its own, so both are drawn on
    the figure's one x-axis. *)
Theorem C7_two_line_traces (w : World) path d t v :
  nth_error (argv w) 1 = Some path ->
  fs w path = Pd.Table d ->
  Pd.getattr d "time" = Ok t ->
  Pd.getattr d "value" = Ok v ->
  Np.is_numeric v = true ->
  renderer w = None ->
  exists f raw rt,
    events (final (python w)) = [IoOpen path; Displayed f] /\
    fig (final (python w)) = Some f /\
    Go.data f = [raw; rt] /\
    Go.x raw = t /\ Go.y raw = v /\
    Go.x rt = Np.getitem_None_m1 t /\ Np.diff v = Ok (Go.y rt) /\
    Go.mode raw = "lines" /\ Go.mode rt = "lines" /\
    Go.xaxis raw = None /\ Go.xaxis rt = Go.xaxis raw /\
    Go.yaxis raw = None /\ Go.yaxis rt = Go.yaxis raw.
Proof.
  intros Harg Hfile Htime Hvalue Hnum Hr.
  destruct (diff_numeric_total v Hnum) as [rate Hdiff].
  exists (two_traces t v rate), (Go.mkScatter t v "lines"),
    (Go.mkScatter (Np.getitem_None_m1 t) rate "lines").
  rewrite (python_ok w _
             (main_shows w path Harg d Hfile t Htime v Hvalue rate Hdiff Hr)).
  cbn. repeat split. exact Hdiff.
Qed.

Lemma C7_witness :
  exists f raw rt,
    events (final (python (Examples.world_of Examples.ramp5)))
      = [IoOpen "ramp.csv"; Displayed f] /\
    fig (final (python (Examples.world_of Examples.ramp5))) = Some f /\
    Go.data f = [raw; rt] /\
    Go.x raw = Np.ArrInt64 [0; 1; 2; 3; 4] /\
    Go.y raw = Np.ArrInt64 [10; 12; 9; 9; 15] /\
    Go.x rt = Np.getitem_None_m1 (Np.ArrInt64 [0; 1; 2; 3; 4]) /\
    Np.diff (Np.ArrInt64 [10; 12; 9; 9; 15]) = Ok (Go.y rt) /\
    Go.mode raw = "lines" /\ Go.mode rt = "lines" /\
    Go.xaxis raw = None /\ Go.xaxis rt = Go.xaxis raw /\
    Go.yaxis raw = None /\ Go.yaxis rt = Go.yaxis raw.
Proof.
  apply (C7_two_line_traces (Examples.world_of Examples.ramp5)
           "ramp.csv" Examples.ramp5 (Np.ArrInt64 [0; 1; 2; 3; 4])
           (Np.ArrInt64 [10; 12; 9; 9; 15]));
    reflexivity.
Defined.

(** C8 as stated fails: where no renderer is available [fig.show()]
    returns without displaying anything, and the script exits with status
    0 although nothing was rendered. *)
Lemma C8_counterexample :
  renderer Examples.world_silent = Some Silent /\
  (forall f,
     ~ In (Displayed f) (events (final (python Examples.world_silent)))) /\
  exit_code (python Examples.world_silent) = 0.
Proof.
  repeat split. intros f H. vm_compute in H. destruct H as [H|H].
  - discriminate H.
  - exact H.
Qed.

(** C8, amended: the script consults the command line at [sys.argv[1]]
    only and hands that string, whatever it is, to [pd.read_csv] as the
    path: a run is the same for any two command lines that agree there, so
    no other argument and no flag has an effect.  The exit status is 0
    whenever the figure was displayed, and also when [fig.show()] returns
    without a renderer, nothing being displayed; it is 1, with a traceback
    on standard error, when the load raises or when [fig.show()] raises. *)
Theorem C8_command_line_and_exit_status (w : World) :
  (forall w', nth_error (argv w') 1 = nth_error (argv w) 1 ->
     (forall p, fs w' p = fs w p) -> renderer w' = renderer w ->
     python w' = python w) /\
  (forall path, nth_error (argv w) 1 = Some path ->
     exists rest, events (final (python w)) = IoOpen path :: rest /\
       forall p, ~ In (IoOpen p) rest) /\
  ((exists f, In (Displayed f) (events (final (python w)))) ->
     exit_code (python w) = 0) /\
  (forall path d t v rate,
     nth_error (argv w) 1 = Some path ->
     fs w path = Pd.Table d ->
     Pd.getattr d "time" = Ok t ->
     Pd.getattr d "value" = Ok v ->
     Np.diff v = Ok rate ->
     renderer w = Some Silent ->
     exit_code (python w) = 0 /\
     forall f, ~ In (Displayed f) (events (final (python w)))) /\
  (forall path e, nth_error (argv w) 1 = Some path ->
     Pd.read_csv (fs w) path = Raise e ->
     exit_code (python w) = 1 /\ stderr (python w) <> []) /\
  (forall e : exn, renderer w = Some (Raises e) ->
     exit_code (python w) = 1 /\ stderr (python w) <> []).
Proof.
  split; [|split; [|split; [|split; [|split]]]].
  - intros w' Ha Hf Hr. unfold python, main, bind.
    rewrite (prepare_same_input w w' Ha Hf).
    destruct (prepare w initial) as [[[]|e] s]; [|reflexivity].
    unfold fig_show. rewrite Hr. reflexivity.
  - intros path Harg. pose proof (prepare_events w) as He.
    rewrite Harg in He. unfold python, main, bind.
    destruct (prepare w initial) as [[[]|e] s]; cbn [snd] in He.
    + unfold fig_show, bind, load_fig, lift, emit, ret.
      destruct (fig s) as [f|]; [destruct (renderer w) as [[e|]|]|];
        cbn; rewrite He.
      * exists []. split; [reflexivity|]. intros p [].
      * exists []. split; [reflexivity|]. intros p [].
      * exists [Displayed f]. split; [reflexivity|].
        intros p [H|[]]. discriminate H.
      * exists []. split; [reflexivity|]. intros p [].
    + cbn. rewrite He. exists []. split; [reflexivity|]. intros p [].
  - unfold python. destruct (main w initial) as [[u|e] s] eqn:E; cbn.
    + reflexivity.
    + intros [f Hf]. exfalso. exact (main_raise_no_display w e s f E Hf).
  - intros path d t v rate Harg Hfile Ht Hv Hd Hr.
    rewrite (python_ok w _ (main_silent w path Harg d Hfile t Ht v Hv rate Hd Hr)).
    split; [reflexivity|]. intros f [H|[]]. discriminate H.
  - intros path e Harg Hload.
    rewrite (python_raises w _ _
               (main_prepare_raises w _ _
                  (prepare_load_raises w path Harg e Hload))).
    split; [reflexivity|discriminate].
  - intros e Hr. destruct (main_render_fails w e Hr) as (e' & s & E).
    rewrite (python_raises w _ _ E). split; [reflexivity|discriminate].
Qed.

Lemma C8_witness :
  python {| argv := [Examples.script; "ramp.csv"; "--fast"; "more.csv"];
            fs := fs (Examples.world_of Examples.ramp5);
            renderer := None |}
    = python (Examples.world_of Examples.ramp5) /\
  exit_code (python (Examples.world_of Examples.ramp5)) = 0 /\
  exit_code (python Examples.world_silent) = 0 /\
  (exit_code (python Examples.world_missing) = 1 /\
   stderr (python Examples.world_missing) <> []) /\
  (exit_code (python Examples.world_headless) = 1 /\
   stderr (python Examples.world_headless) <> []).
Proof.
  split; [|split; [|split; [|split]]].
  - apply (proj1 (C8_command_line_and_exit_status
                    (Examples.world_of Examples.ramp5))).
    + reflexivity.
    + intros p. reflexivity.
    + reflexivity.
  - apply (proj1 (proj2 (proj2 (C8_command_line_and_exit_status
                                  (Examples.world_of Examples.ramp5))))).
    eexists. simpl. right. left. reflexivity.
  - apply (proj1 (proj2 (proj2 (proj2
             (C8_command_line_and_exit_status Examples.world_silent))))
             "ramp.csv" Examples.ramp5 (Np.ArrInt64 [0; 1; 2; 3; 4])
             (Np.ArrInt64 [10; 12; 9; 9; 15]) (Np.ArrInt64 [2; -3; 0; 6]));
      reflexivity.
  - apply (proj1 (proj2 (proj2 (proj2 (proj2
             (C8_command_line_and_exit_status Examples.world_missing)))))
             "nowhere.csv" (FileNotFoundError "nowhere.csv"));
      reflexivity.
  - apply (proj2 (proj2 (proj2 (proj2 (proj2
             (C8_command_line_and_exit_status Examples.world_headless)))))
             (OtherError "ValueError")).
    reflexivity.
Defined.

(** C9: invoked with no command-line argument, the script raises
    [IndexError] at [sys.argv[1]]: no file is opened, no table, figure or
    rate sequence exists, nothing is displayed, and the process exits with
    a non-zero status. *)
Theorem C9_no_argument_fails_first (w : World) :
  (List.length (argv w) < 2)%nat ->
  main w initial = (Raise IndexError, initial) /\
  events (final (python w)) = [] /\
  fig (final (python w)) = None /\
  exit_code (python w) = 1.
Proof.
  intros H.
  assert (E : main w initial = (Raise IndexError, initial)).
  { apply main_prepare_raises, prepare_noarg, nth_error_None. lia. }
  rewrite (python_raises _ _ _ E). repeat split. exact E.
Qed.

Lemma C9_witness :
  main Examples.world_noarg initial = (Raise IndexError, initial) /\
  events (final (python Examples.world_noarg)) = [] /\
  fig (final (python Examples.world_noarg)) = None /\
  exit_code (python Examples.world_noarg) = 1.
Proof. apply (C9_no_argument_fails_first Examples.world_noarg). cbn. lia. Defined.

(** C10: the differencing statement changes nothing but [speed]: from any
    state, whether it returns or raises, it leaves the table, the figure
    and the effect trace as they were.  Over a whole run that reaches the
    display, [df] is still the table read from the file, the raw trace
    holds its time and value columns, and the rate trace holds its time
    column without the last entry. *)
Theorem C10_differencing_leaves_table :
  (forall s,
     df (snd (stmt_diff s)) = df s /\
     fig (snd (stmt_diff s)) = fig s /\
     events (snd (stmt_diff s)) = events s) /\
  (forall (w : World) path d t v rate,
     nth_error (argv w) 1 = Some path ->
     fs w path = Pd.Table d ->
     Pd.getattr d "time" = Ok t ->
     Pd.getattr d "value" = Ok v ->
     Np.diff v = Ok rate ->
     exists d' raw rt,
       df (snd (main w initial)) = Some d' /\ d' = d /\
       fig (snd (main w initial)) = Some {| Go.data := [raw; rt] |} /\
       Ok (Go.x raw) = Pd.getattr d' "time" /\
       Ok (Go.y raw) = Pd.getattr d' "value" /\
       Ok (Go.x rt) =
         match Pd.getattr d' "time" with
         | Ok c => Ok (Np.getitem_None_m1 c)
         | Raise e => Raise e
         end).
Proof.
  split.
  - intros s. unfold stmt_diff, bind, load_df, lift, store_speed.
    destruct (df s) as [d|] eqn:Ed; cbn; [|auto].
    destruct (Pd.getattr d "value") as [v|e]; cbn; [|auto].
    destruct (Np.diff (Pd.values v)); cbn; auto.
  - intros w path d t v rate Harg Hfile Htime Hvalue Hdiff.
    destruct (main_final_state w path Harg d Hfile t Htime v Hvalue rate Hdiff)
      as (Hd & Hf & _).
    exists d, (Go.mkScatter t v "lines"),
      (Go.mkScatter (Np.getitem_None_m1 t) rate "lines").
    rewrite Htime, Hvalue. cbn. repeat split; assumption.
Qed.

Lemma C10_witness :
  exists d' raw rt,
    df (snd (main (Examples.world_of Examples.ramp5) initial)) = Some d' /\
    d' = Examples.ramp5 /\
    fig (snd (main (Examples.world_of Examples.ramp5) initial))
      = Some {| Go.data := [raw; rt] |} /\
    Ok (Go.x raw) = Pd.getattr d' "time" /\
    Ok (Go.y raw) = Pd.getattr d' "value" /\
    Ok (Go.x rt) =
      match Pd.getattr d' "time" with
      | Ok c => Ok (Np.getitem_None_m1 c)
      | Raise e => Raise e
      end.
Proof.
  apply (proj2 C10_differencing_leaves_table
           (Examples.world_of Examples.ramp5) "ramp.csv" Examples.ramp5
           (Np.ArrInt64 [0; 1; 2; 3; 4]) (Np.ArrInt64 [10; 12; 9; 9; 15])
           (Np.ArrInt64 [2; -3; 0; 6]));
    reflexivity.
Defined.
(** ** Further properties of the differencing step *)

Lemma differences_cons {A B} (op : A -> A -> B) a b (r : list A) :
  Np.zip_with op (Np.slice_1_None (a :: b :: r)) (Np.slice_None_m1 (a :: b :: r))
  = op b a ::
    Np.zip_with op (Np.slice_1_None (b :: r)) (Np.slice_None_m1 (b :: r)).
Proof. reflexivity. Qed.

Lemma wrap_int64_add_l x y :
  Np.wrap_int64 (Np.wrap_int64 x + y) = Np.wrap_int64 (x + y).
Proof.
  unfold Np.wrap_int64. f_equal.
  replace ((x + 2 ^ 63) mod 2 ^ 64 - 2 ^ 63 + y + 2 ^ 63)
    with ((x + 2 ^ 63) mod 2 ^ 64 + y) by lia.
  rewrite Zplus_mod_idemp_l. f_equal. lia.
Qed.

Lemma wrap_int64_add_r x y :
  Np.wrap_int64 (x + Np.wrap_int64 y) = Np.wrap_int64 (x + y).
Proof. rewrite Z.add_comm, wrap_int64_add_l. f_equal. lia. Qed.

Lemma wrap_int64_sub_l x y :
  Np.wrap_int64 (Np.wrap_int64 x - y) = Np.wrap_int64 (x - y).
Proof. apply (wrap_int64_add_l x (- y)). Qed.

Lemma wrap_int64_sub_r x y :
  Np.wrap_int64 (x - Np.wrap_int64 y) = Np.wrap_int64 (x - y).
Proof.
  unfold Np.wrap_int64. f_equal.
  replace (x - ((y + 2 ^ 63) mod 2 ^ 64 - 2 ^ 63) + 2 ^ 63)
    with (x + 2 ^ 63 + 2 ^ 63 - (y + 2 ^ 63) mod 2 ^ 64) by lia.
  rewrite Zminus_mod_idemp_r. f_equal. lia.
Qed.

Lemma wrap_int64_eq_in_range a b c :
  Np.in_int64 a -> Np.in_int64 b ->
  Np.wrap_int64 (a - c) = Np.wrap_int64 (b - c) -> a = b.
Proof.
  unfold Np.in_int64, Np.wrap_int64. intros Ha Hb H.
  pose proof (Z.div_mod (a - c + 2 ^ 63) (2 ^ 64) ltac:(lia)) as Da.
  pose proof (Z.div_mod (b - c + 2 ^ 63) (2 ^ 64) ltac:(lia)) as Db.
  assert (E : (a - c + 2 ^ 63) mod 2 ^ 64 = (b - c + 2 ^ 63) mod 2 ^ 64) by lia.
  rewrite E in Da.
  change (2 ^ 64) with 18446744073709551616 in *.
  change (2 ^ 63) with 9223372036854775808 in *.
  lia.
Qed.

Lemma total_differences_int64 a (r : list Z) :
  Np.wrap_int64
    (total (Np.zip_with Np.sub_int64 (Np.slice_1_None (a :: r))
              (Np.slice_None_m1 (a :: r))))
  = Np.wrap_int64 (last (a :: r) 0 - a).
Proof.
  revert a. induction r as [|b r IH]; intros a.
  - replace (last [a] 0 - a) with 0 by (cbn [last]; lia). reflexivity.
  - rewrite differences_cons.
    change (last (a :: b :: r) 0) with (last (b :: r) 0).
    cbn [total fold_right]. fold (total (Np.zip_with Np.sub_int64
      (Np.slice_1_None (b :: r)) (Np.slice_None_m1 (b :: r)))).
    unfold Np.sub_int64 at 1.
    rewrite wrap_int64_add_l, <- wrap_int64_add_r, IH, wrap_int64_add_r.
    f_equal. lia.
Qed.

(** X1: on an int64 value column the rates the script computes add up,
    modulo 2^64, to the net change of the column, last value minus first;
    when that net change fits in 64 bits the wrapped sum is exactly it. *)
Theorem speed_sums_to_net_change (w : World) path d t l :
  nth_error (argv w) 1 = Some path ->
  fs w path = Pd.Table d ->
  Pd.getattr d "time" = Ok t ->
  Pd.getattr d "value" = Ok (Np.ArrInt64 l) ->
  exists rates,
    speed (snd (main w initial)) = Some (Np.ArrInt64 rates) /\
    Np.wrap_int64 (total rates) = Np.wrap_int64 (last l 0 - hd 0 l) /\
    (Np.in_int64 (last l 0 - hd 0 l) ->
     Np.wrap_int64 (total rates) = last l 0 - hd 0 l).
Proof.
  intros Harg Hfile Htime Hvalue.
  destruct (main_final_state w path Harg d Hfile t Htime _ Hvalue _ eq_refl)
    as (_ & _ & Hs).
  eexists. split; [exact Hs|].
  assert (E : Np.wrap_int64
                (total (Np.zip_with Np.sub_int64 (Np.slice_1_None l)
                          (Np.slice_None_m1 l)))
              = Np.wrap_int64 (last l 0 - hd 0 l)).
  { destruct l as [|a r]; [reflexivity|]. apply total_differences_int64. }
  split; [exact E|].
  intros Hr. rewrite E. apply wrap_int64_id. exact Hr.
Qed.

Lemma speed_sums_to_net_change_witness :
  exists rates,
    speed (snd (main (Examples.world_of Examples.ramp5) initial))
      = Some (Np.ArrInt64 rates) /\
    Np.wrap_int64 (total rates) = Np.wrap_int64 (15 - 10) /\
    (Np.in_int64 (15 - 10) -> Np.wrap_int64 (total rates) = 15 - 10).
Proof.
  apply (speed_sums_to_net_change (Examples.world_of Examples.ramp5)
           "ramp.csv" Examples.ramp5 (Np.ArrInt64 [0; 1; 2; 3; 4])
           [10; 12; 9; 9; 15]);
    reflexivity.
Defined.

(** X2: adding one constant to every entry of an int64 column, with the
    column's own wrap-around, leaves the differences unchanged: the rate
    trace does not depend on the baseline of the signal. *)
Theorem diff_ignores_offset (c : Z) (l : list Z) :
  Np.diff (Np.ArrInt64 (map (fun z => Np.wrap_int64 (z + c)) l))
  = Np.diff (Np.ArrInt64 l).
Proof.
  cbn [Np.diff]. do 2 f_equal.
  destruct l as [|a r]; [reflexivity|].
  revert a. induction r as [|b r IH]; intros a; [reflexivity|].
  cbn [map]. rewrite !differences_cons. f_equal.
  - unfold Np.sub_int64.
    rewrite wrap_int64_sub_l, wrap_int64_sub_r. f_equal. lia.
  - apply (IH b).
Qed.

(** X3: two int64 columns of the same length whose entries are in range,
    with the same first entry and the same differences, are the same
    column: the rate sequence loses nothing but the starting value. *)
Theorem diff_and_first_determine_column (l1 l2 : list Z) :
  Forall Np.in_int64 l1 -> Forall Np.in_int64 l2 ->
  List.length l1 = List.length l2 ->
  hd 0 l1 = hd 0 l2 ->
  Np.diff (Np.ArrInt64 l1) = Np.diff (Np.ArrInt64 l2) ->
  l1 = l2.
Proof.
  intros H1 H2 Hlen Hhd Hd. cbn [Np.diff] in Hd.
  injection Hd as Hd.
  destruct l1 as [|a r1], l2 as [|a' r2]; try discriminate; [reflexivity|].
  cbn [hd] in Hhd. subst a'. f_equal.
  apply Forall_inv_tail in H1, H2. cbn in Hlen. injection Hlen as Hlen.
  revert a r2 H1 H2 Hlen Hd.
  induction r1 as [|b r1 IH]; intros a [|b' r2] H1 H2 Hlen Hd;
    try discriminate; [reflexivity|].
  rewrite !differences_cons in Hd. injection Hd as Hb Hd.
  assert (b = b').
  { apply (wrap_int64_eq_in_range b b' a);
      [exact (Forall_inv H1)|exact (Forall_inv H2)|exact Hb]. }
  subst b'. f_equal.
  apply (IH b); [exact (Forall_inv_tail H1)|exact (Forall_inv_tail H2)| |exact Hd].
  cbn in Hlen. congruence.
Qed.

Lemma diff_and_first_determine_column_witness :
  [10; 12; 9] = [10; 12; 9].
Proof.
  apply (diff_and_first_determine_column [10; 12; 9] [10; 12; 9]).
  - repeat constructor; unfold Np.in_int64; simpl; lia.
  - repeat constructor; unfold Np.in_int64; simpl; lia.
  - reflexivity.
  - reflexivity.
  - reflexivity.
Defined.

(** X4: a straight int64 ramp, start a and step k, has the same rate
    everywhere: every difference is k, wrapped to 64 bits. *)
Theorem diff_of_ramp_is_flat (a k : Z) (n i : nat) :
  (i + 1 < n)%nat ->
  exists rate,
    Np.diff (Np.ArrInt64 (ramp a k n)) = Ok rate /\
    Np.size rate = (n - 1)%nat /\
    Np.item rate i = Some (Np.SInt64 (Np.wrap_int64 k)).
Proof.
  intros Hi. eexists. split; [reflexivity|]. split.
  - cbn [Np.size]. rewrite length_differences. unfold ramp.
    rewrite length_map, length_seq. reflexivity.
  - unfold Np.item.
    assert (Hlen : (S i < List.length (ramp a k n))%nat).
    { unfold ramp. rewrite length_map, length_seq. lia. }
    assert (Ea : nth_error (ramp a k n) (S i) = Some (a + Z.of_nat (S i) * k)).
    { unfold ramp. rewrite nth_error_map, nth_error_seq.
      destruct (Nat.ltb_spec (S i) n); [reflexivity|lia]. }
    assert (Eb : nth_error (ramp a k n) i = Some (a + Z.of_nat i * k)).
    { unfold ramp. rewrite nth_error_map, nth_error_seq.
      destruct (Nat.ltb_spec i n); [reflexivity|lia]. }
    destruct (nth_error_differences Np.sub_int64 _ i Hlen)
      as (x & y & Ex & Ey & ->).
    assert (Hx : x = a + Z.of_nat (S i) * k) by congruence.
    assert (Hy : y = a + Z.of_nat i * k) by congruence.
    subst x y. unfold option_map, Np.sub_int64. do 3 f_equal.
    rewrite Nat2Z.inj_succ. ring.
Qed.

Lemma diff_of_ramp_is_flat_witness :
  exists rate,
    Np.diff (Np.ArrInt64 (ramp 60 4 5)) = Ok rate /\
    Np.size rate = (5 - 1)%nat /\
    Np.item rate 2 = Some (Np.SInt64 (Np.wrap_int64 4)).
Proof. apply (diff_of_ramp_is_flat 60 4 5 2). simpl. lia. Defined.

(** ** Further properties of a run *)

Lemma main_displayed_inv (w : World) f :
  In (Displayed f) (events (snd (main w initial))) ->
  exists path d t v rate,
    nth_error (argv w) 1 = Some path /\
    fs w path = Pd.Table d /\
    Pd.getattr d "time" = Ok t /\
    Pd.getattr d "value" = Ok v /\
    Np.diff v = Ok rate /\
    renderer w = None /\
    main w initial = (Ok tt, shown path d t v rate).
Proof.
  intros Hin.
  destruct (main_cases w) as [(e & s & E & Hno & _)|
    (path & d & t & v & rate & H1 & H2 & H3 & H4 & H5 & [[Hr E]|[Hr E]])];
    rewrite E in Hin; cbn [snd] in Hin.
  - destruct (Hno f Hin).
  - exists path, d, t, v, rate. repeat split; assumption.
  - cbn in Hin. destruct Hin as [H|[]]. discriminate H.
Qed.

(** X5: the script exits with status 0 exactly when the command line has
    an argument, the path holds a table with a time and a value column,
    the differencing of the value column does not raise, and the display
    backend does not raise; the dtype of the time column plays no part. *)
Theorem exit_zero_iff (w : World) :
  exit_code (python w) = 0 <->
  exists path d t v rate,
    nth_error (argv w) 1 = Some path /\
    fs w path = Pd.Table d /\
    Pd.getattr d "time" = Ok t /\
    Pd.getattr d "value" = Ok v /\
    Np.diff v = Ok rate /\
    (forall e : exn, renderer w <> Some (Raises e)).
Proof.
  split.
  - unfold python.
    destruct (main_cases w) as [(e & s & E & _)|
      (path & d & t & v & rate & H1 & H2 & H3 & H4 & H5 & H6)].
    + rewrite E. cbn. discriminate.
    + intros _. exists path, d, t, v, rate. repeat split; try assumption.
      intros e. destruct H6 as [[-> _]|[-> _]]; discriminate.
  - intros (path & d & t & v & rate & H1 & H2 & H3 & H4 & H5 & H6).
    apply (python_show_returns w path H1 d H2 t H3 v H4 rate H5 H6).
Qed.

Lemma exit_zero_iff_witness :
  exit_code (python (Examples.world_of Examples.ramp5)) = 0.
Proof.
  apply (proj2 (exit_zero_iff (Examples.world_of Examples.ramp5))).
  exists "ramp.csv", Examples.ramp5, (Np.ArrInt64 [0; 1; 2; 3; 4]),
    (Np.ArrInt64 [10; 12; 9; 9; 15]), (Np.ArrInt64 [2; -3; 0; 6]).
  repeat split. intros e. discriminate.
Defined.

(** X6: whatever the input, a figure the script puts on screen holds
    exactly two traces in mode "lines"; the second has as y-values the
    differences of the first's y-values and as x-values the first's
    x-values without the last.  It is displayed once, after the one read of
    the input file, and it is the figure bound to [fig]. *)
Theorem displayed_figure_shape (w : World) f :
  In (Displayed f) (events (final (python w))) ->
  exists path raw rt,
    Go.data f = [raw; rt] /\
    Go.mode raw = "lines" /\ Go.mode rt = "lines" /\
    Go.x rt = Np.getitem_None_m1 (Go.x raw) /\
    Np.diff (Go.y raw) = Ok (Go.y rt) /\
    nth_error (argv w) 1 = Some path /\
    events (final (python w)) = [IoOpen path; Displayed f] /\
    fig (final (python w)) = Some f.
Proof.
  intros Hin.
  assert (Hin' : In (Displayed f) (events (snd (main w initial)))).
  { unfold python in Hin. destruct (main w initial) as [[u|e] s]; exact Hin. }
  destruct (main_displayed_inv w f Hin')
    as (path & d & t & v & rate & H1 & _ & _ & _ & H5 & _ & E).
  rewrite (python_ok w _ E) in Hin |- *. cbn [final shown events fig] in Hin |- *.
  destruct Hin as [H|[H|[]]]; [discriminate H|].
  injection H as <-.
  exists path, (Go.mkScatter t v "lines"),
    (Go.mkScatter (Np.getitem_None_m1 t) rate "lines").
  cbn. repeat split; assumption.
Qed.

Lemma displayed_figure_shape_witness :
  exists path raw rt,
    Go.data (two_traces (Np.ArrInt64 [0]) (Np.ArrObject [Np.PyStr "abc"])
               (Np.ArrObject [])) = [raw; rt] /\
    Go.mode raw = "lines" /\ Go.mode rt = "lines" /\
    Go.x rt = Np.getitem_None_m1 (Go.x raw) /\
    Np.diff (Go.y raw) = Ok (Go.y rt) /\
    nth_error (argv (Examples.world_of Examples.text1)) 1 = Some path /\
    events (final (python (Examples.world_of Examples.text1)))
      = [IoOpen path;
         Displayed (two_traces (Np.ArrInt64 [0])
                      (Np.ArrObject [Np.PyStr "abc"]) (Np.ArrObject []))] /\
    fig (final (python (Examples.world_of Examples.text1)))
      = Some (two_traces (Np.ArrInt64 [0]) (Np.ArrObject [Np.PyStr "abc"])
                (Np.ArrObject [])).
Proof.
  apply (displayed_figure_shape (Examples.world_of Examples.text1)).
  simpl. right. left. reflexivity.
Defined.

(** X7: when the table has no time column the script raises
    [AttributeError] for [time] at the first trace, whatever the value
    column holds: the table is loaded, the figure exists and is empty,
    nothing is displayed and the exit status is 1. *)
Theorem missing_time_column_fails_first (w : World) path d :
  nth_error (argv w) 1 = Some path ->
  fs w path = Pd.Table d ->
  Pd.lookup "time" (Pd.columns d) = None ->
  main w initial = (Raise (AttributeError "time"), partial path d []) /\
  exit_code (python w) = 1 /\
  stderr (python w) = ["Traceback (most recent call last):"; "AttributeError"].
Proof.
  intros Harg Hfile Hno.
  assert (E : main w initial
              = (Raise (AttributeError "time"), partial path d [])).
  { apply main_prepare_raises, (prepare_no_time w path Harg d Hfile).
    unfold Pd.getattr. rewrite Hno. reflexivity. }
  split; [exact E|]. rewrite (python_raises w _ _ E). split; reflexivity.
Qed.

Lemma missing_time_column_fails_first_witness :
  main (Examples.world_of
          {| Pd.columns := [("value", Np.ArrInt64 [10; 12])] |}) initial
    = (Raise (AttributeError "time"),
       partial "ramp.csv"
         {| Pd.columns := [("value", Np.ArrInt64 [10; 12])] |} []) /\
  exit_code (python (Examples.world_of
          {| Pd.columns := [("value", Np.ArrInt64 [10; 12])] |})) = 1 /\
  stderr (python (Examples.world_of
          {| Pd.columns := [("value", Np.ArrInt64 [10; 12])] |}))
    = ["Traceback (most recent call last):"; "AttributeError"].
Proof.
  apply (missing_time_column_fails_first
           (Examples.world_of
              {| Pd.columns := [("value", Np.ArrInt64 [10; 12])] |})
           "ramp.csv");
    reflexivity.
Defined.

(** X8: when everything up to [fig.show()] succeeds and the display
    backend raises, the script ends with exactly that exception: the
    figure is complete with both traces, the file was read once, nothing
    is displayed, and the exit status is 1 with the exception named on
    standard error. *)
Theorem render_failure_propagates (w : World) path d t v rate (e : exn) :
  nth_error (argv w) 1 = Some path ->
  fs w path = Pd.Table d ->
  Pd.getattr d "time" = Ok t ->
  Pd.getattr d "value" = Ok v ->
  Np.diff v = Ok rate ->
  renderer w = Some (Raises e) ->
  main w initial = (Raise e, built path d t v rate) /\
  (forall f, ~ In (Displayed f) (events (final (python w)))) /\
  exit_code (python w) = 1 /\
  stderr (python w) = ["Traceback (most recent call last):"; exn_name e].
Proof.
  intros Harg Hfile Ht Hv Hd Hr.
  pose proof (main_render_raises w path Harg d Hfile t Ht v Hv rate Hd e Hr)
    as E.
  split; [exact E|]. rewrite (python_raises w _ _ E). cbn.
  split; [|split; reflexivity].
  intros f [H|[]]. discriminate H.
Qed.

Lemma render_failure_propagates_witness :
  main Examples.world_headless initial
    = (Raise (OtherError "ValueError"),
       built "ramp.csv" Examples.ramp5 (Np.ArrInt64 [0; 1; 2; 3; 4])
         (Np.ArrInt64 [10; 12; 9; 9; 15]) (Np.ArrInt64 [2; -3; 0; 6])) /\
  (forall f, ~ In (Displayed f) (events (final (python Examples.world_headless)))) /\
  exit_code (python Examples.world_headless) = 1 /\
  stderr (python Examples.world_headless)
    = ["Traceback (most recent call last):"; "ValueError"].
Proof.
  apply (render_failure_propagates Examples.world_headless "ramp.csv"
           Examples.ramp5 (Np.ArrInt64 [0; 1; 2; 3; 4])
           (Np.ArrInt64 [10; 12; 9; 9; 15]) (Np.ArrInt64 [2; -3; 0; 6])
           (OtherError "ValueError"));
    reflexivity.
Defined.

(** ** The fixed-width dtypes at their bounds *)

Lemma wrap_uint64_step a b :
  0 <= a < 2 ^ 64 -> 0 <= b < 2 ^ 64 ->
  Np.wrap_uint64 (a - b) = if (a <? b)%Z then a - b + 2 ^ 64 else a - b.
Proof.
  intros Ha Hb. unfold Np.wrap_uint64.
  destruct (Z.ltb_spec a b).
  - symmetry. apply (Z.mod_unique (a - b) (2 ^ 64) (-1)); lia.
  - apply Z.mod_small. lia.
Qed.

Lemma wrap_int64_step a b :
  Np.in_int64 a -> Np.in_int64 b ->
  Np.wrap_int64 (a - b) =
    if (2 ^ 63 <=? a - b)%Z then a - b - 2 ^ 64
    else if (a - b <? - 2 ^ 63)%Z then a - b + 2 ^ 64
    else a - b.
Proof.
  unfold Np.in_int64, Np.wrap_int64. intros Ha Hb.
  destruct (Z.leb_spec (2 ^ 63) (a - b)).
  - rewrite <- (Z.mod_unique (a - b + 2 ^ 63) (2 ^ 64) 1 (a - b - 2 ^ 63));
      lia.
  - destruct (Z.ltb_spec (a - b) (- 2 ^ 63)).
    + rewrite <- (Z.mod_unique (a - b + 2 ^ 63) (2 ^ 64) (-1)
                    (a - b + 2 ^ 63 + 2 ^ 64)); lia.
    + rewrite Z.mod_small; lia.
Qed.

(** X9: on a uint64 column a rate is never negative: where the value
    falls from one row to the next, the difference wraps to
    value[i+1] - value[i] + 2^64; where it does not fall, it is the exact
    difference. *)
Theorem diff_uint64_step (l : list Z) (i : nat) (a b : Z) :
  nth_error l (i + 1) = Some a ->
  nth_error l i = Some b ->
  0 <= a < 2 ^ 64 -> 0 <= b < 2 ^ 64 ->
  exists rate,
    Np.diff (Np.ArrUInt64 l) = Ok rate /\
    Np.item rate i
      = Some (Np.SUInt64 (if (a <? b)%Z then a - b + 2 ^ 64 else a - b)) /\
    0 <= (if (a <? b)%Z then a - b + 2 ^ 64 else a - b) < 2 ^ 64.
Proof.
  intros Ea Eb Ha Hb. eexists. split; [reflexivity|]. split.
  - unfold Np.item. rewrite Nat.add_1_r in Ea.
    assert (Hlen : (S i < List.length l)%nat).
    { apply nth_error_Some. congruence. }
    destruct (nth_error_differences Np.sub_uint64 l i Hlen)
      as (x & y & Ex & Ey & ->).
    assert (x = a) by congruence. assert (y = b) by congruence. subst x y.
    unfold option_map, Np.sub_uint64.
    rewrite (wrap_uint64_step a b Ha Hb). reflexivity.
  - destruct (Z.ltb_spec a b); lia.
Qed.

Lemma diff_uint64_step_witness :
  exists rate,
    Np.diff (Np.ArrUInt64 [5; 3]) = Ok rate /\
    Np.item rate 0
      = Some (Np.SUInt64 (if (3 <? 5)%Z then 3 - 5 + 2 ^ 64 else 3 - 5)) /\
    0 <= (if (3 <? 5)%Z then 3 - 5 + 2 ^ 64 else 3 - 5) < 2 ^ 64.
Proof.
  apply (diff_uint64_step [5; 3] 0 3 5).
  - reflexivity.
  - reflexivity.
  - simpl. lia.
  - simpl. lia.
Defined.

(** X10: on an int64 column whose entries are in range, a difference that
    does not fit in 64 bits comes out shifted by 2^64, so with the
    opposite sign: value[i+1] - value[i] - 2^64 when the step is 2^63 or
    more, value[i+1] - value[i] + 2^64 when it is below -2^63, and the
    exact difference otherwise. *)
Theorem diff_int64_step (l : list Z) (i : nat) (a b : Z) :
  nth_error l (i + 1) = Some a ->
  nth_error l i = Some b ->
  Np.in_int64 a -> Np.in_int64 b ->
  exists rate,
    Np.diff (Np.ArrInt64 l) = Ok rate /\
    Np.item rate i
      = Some (Np.SInt64
                (if (2 ^ 63 <=? a - b)%Z then a - b - 2 ^ 64
                 else if (a - b <? - 2 ^ 63)%Z then a - b + 2 ^ 64
                 else a - b)).
Proof.
  intros Ea Eb Ha Hb. eexists. split; [reflexivity|].
  unfold Np.item. rewrite Nat.add_1_r in Ea.
  assert (Hlen : (S i < List.length l)%nat).
  { apply nth_error_Some. congruence. }
  destruct (nth_error_differences Np.sub_int64 l i Hlen)
    as (x & y & Ex & Ey & ->).
  assert (x = a) by congruence. assert (y = b) by congruence. subst x y.
  unfold option_map, Np.sub_int64.
  rewrite (wrap_int64_step a b Ha Hb). reflexivity.
Qed.

Lemma diff_int64_step_witness :
  exists rate,
    Np.diff (Np.ArrInt64 [- 2 ^ 63; 2 ^ 63 - 1]) = Ok rate /\
    Np.item rate 0
      = Some (Np.SInt64
                (if (2 ^ 63 <=? (2 ^ 63 - 1) - (- 2 ^ 63))%Z
                 then (2 ^ 63 - 1) - (- 2 ^ 63) - 2 ^ 64
                 else if ((2 ^ 63 - 1) - (- 2 ^ 63) <? - 2 ^ 63)%Z
                 then (2 ^ 63 - 1) - (- 2 ^ 63) + 2 ^ 64
                 else (2 ^ 63 - 1) - (- 2 ^ 63))).
Proof.
  apply (diff_int64_step [- 2 ^ 63; 2 ^ 63 - 1] 0 (2 ^ 63 - 1) (- 2 ^ 63)).
  - reflexivity.
  - reflexivity.
  - unfold Np.in_int64. simpl. lia.
  - unfold Np.in_int64. simpl. lia.
Defined.
